(** * The docker staging backend of the stager

    A shallow embedding of [backend/docker_backend.go]: the recipe builder
    [BuildRecipe], its helpers ([validateRequest], [compilerDownloadURL],
    [dockerTimeout], [addDockerRegistryRules], [getDockerRegistryServices],
    [addDockerCachingArguments]) and the response builder
    [BuildStagingResponse].

    Go values are modelled as follows.
    - [string] is Rocq's byte string; [len] is [String.length].
    - [int] (64 bit) is [Z]; the conversions [int32(_)], [uint64(_)] and the
      [time.Duration] product wrap around explicitly.
    - a [(value, error)] pair is a [result]; a nil pointer is [None].
    - [map[string]string] is a [gmap string string]; a missing key reads as
      the empty string.
    - the one effect of the backend, the HTTP GET against the consul
      catalog, is threaded through an explicit [World]. *)

From Stdlib Require Import ZArith String Ascii List Bool Lia.
From stdpp Require Import base option list strings gmap.

Import ListNotations.
Set Warnings "-register-all".
Set Default Proof Using "Type".
Local Open Scope Z_scope.
Local Open Scope string_scope.
Local Open Scope list_scope.

(** ** Errors *)

(** Go's [error] values.  The package-level error variables are compared
    by identity in the source and its tests, so each one is a constructor;
    [errors.New] and [fmt.Errorf] at a use site give [ErrorString]; errors
    coming out of the standard library keep the package that raised them. *)
Inductive error : Type :=
| ErrMissingAppId
| ErrNoCompilerDefined
| ErrMissingDockerImageUrl
| ErrMissingDockerRegistry
| ErrMissingDockerCredentials
| ErrInvalidDockerRegistryAddress
| ErrorString (msg : string)
| LibraryError (pkg : string) (msg : string).

Inductive result (A : Type) : Type :=
| Ok (a : A)
| Err (e : error).
Arguments Ok {A} a.
Arguments Err {A} e.

(** A Go call either returns or panics (nil dereference). *)
Inductive outcome (A : Type) : Type :=
| Returned (a : A)
| Panicked (msg : string).
Arguments Returned {A} a.
Arguments Panicked {A} msg.

(** ** Fixed-width integers *)

Definition int32 (z : Z) : Z := (z + 2 ^ 31) mod 2 ^ 32 - 2 ^ 31.
Definition int64 (z : Z) : Z := (z + 2 ^ 63) mod 2 ^ 64 - 2 ^ 63.
Definition uint64 (z : Z) : Z := z mod 2 ^ 64.

(** ** [time.Duration] *)

Definition Second : Z := 1000000000.
Definition Minute : Z := 60 * Second.

(** [time.Duration(n) * d] is an int64 product. *)
Definition duration_mul (n d : Z) : Z := int64 (int64 n * d).

(** ** A model of [encoding/json] *)

Module JSON.

Inductive value : Type :=
| Null
| Bool (b : bool)
| Number (literal : string)
| Str (s : string)
| Array (elements : list value)
| Object (members : list (string * value)).

Definition is_space (c : ascii) : bool :=
  match c with
  | " "%char | "009"%char | "010"%char | "013"%char => true
  | _ => false
  end.

Fixpoint skip_space (s : string) : string :=
  match s with
  | String c rest => if is_space c then skip_space rest else s
  | EmptyString => s
  end.

Definition is_digit (c : ascii) : bool :=
  let n := nat_of_ascii c in (48 <=? n)%nat && (n <=? 57)%nat.

Fixpoint span_digits (s : string) : string * string :=
  match s with
  | String c rest =>
      if is_digit c
      then let '(ds, tl) := span_digits rest in (String c ds, tl)
      else (EmptyString, s)
  | EmptyString => (EmptyString, EmptyString)
  end.

Definition hex_digit (c : ascii) : option N :=
  let n := N_of_ascii c in
  if (48 <=? n)%N && (n <=? 57)%N then Some (n - 48)%N
  else if (97 <=? n)%N && (n <=? 102)%N then Some (n - 87)%N
  else if (65 <=? n)%N && (n <=? 70)%N then Some (n - 55)%N
  else None.

Definition hex4 (a b c d : ascii) : option N :=
  match hex_digit a, hex_digit b, hex_digit c, hex_digit d with
  | Some x, Some y, Some z, Some w => Some (((x * 16 + y) * 16 + z) * 16 + w)%N
  | _, _, _, _ => None
  end.

Definition byte (n : N) : ascii := ascii_of_N n.

(** UTF-8 encoding of a code point ([utf8.EncodeRune]); a surrogate is
    written as U+FFFD. *)
Definition utf8 (cp : N) : string :=
  let cp := if (55296 <=? cp)%N && (cp <=? 57343)%N then 65533%N else cp in
  if (cp <? 128)%N then String (byte cp) EmptyString
  else if (cp <? 2048)%N then
    String (byte (192 + cp / 64)) (String (byte (128 + cp mod 64)) EmptyString)
  else if (cp <? 65536)%N then
    String (byte (224 + cp / 4096))
      (String (byte (128 + (cp / 64) mod 64))
         (String (byte (128 + cp mod 64)) EmptyString))
  else
    String (byte (240 + cp / 262144))
      (String (byte (128 + (cp / 4096) mod 64))
         (String (byte (128 + (cp / 64) mod 64))
            (String (byte (128 + cp mod 64)) EmptyString))).

(** The two halves of a surrogate pair ([utf16.DecodeRune]). *)
Definition high_surrogate (cp : N) : bool := (55296 <=? cp)%N && (cp <? 56320)%N.
Definition low_surrogate (cp : N) : bool := (56320 <=? cp)%N && (cp <? 57344)%N.

Definition joined (high low : N) : N :=
  (65536 + (high - 55296) * 1024 + (low - 56320))%N.

(** The first byte of a UTF-8 sequence ([utf8.DecodeRune]): the length of
    the sequence it opens and the range of its second byte; length 0 for a
    byte that opens none. *)
Definition lead (c : ascii) : N * N * N :=
  let n := N_of_ascii c in
  if (194 <=? n)%N && (n <=? 223)%N then (2, 128, 191)%N
  else if (n =? 224)%N then (3, 160, 191)%N
  else if (n =? 237)%N then (3, 128, 159)%N
  else if (225 <=? n)%N && (n <=? 239)%N then (3, 128, 191)%N
  else if (n =? 240)%N then (4, 144, 191)%N
  else if (241 <=? n)%N && (n <=? 243)%N then (4, 128, 191)%N
  else if (n =? 244)%N then (4, 128, 143)%N
  else (0, 0, 0)%N.

Definition between (b : ascii) (lo hi : N) : bool :=
  (lo <=? N_of_ascii b)%N && (N_of_ascii b <=? hi)%N.

Definition continuation (b : ascii) : bool := between b 128 191.

(** The characters after an opening quote, up to the closing one, as
    [unquote] gives them: escapes are decoded, an escaped surrogate pair
    is joined into its code point, a lone one becomes U+FFFD, and a byte
    that is not part of a well-formed UTF-8 sequence becomes U+FFFD. *)
Fixpoint string_body (s : string) : option (string * string) :=
  match s with
  | EmptyString => None
  | String c rest =>
      if Ascii.eqb c "034"%char then Some (EmptyString, rest)
      else if Ascii.eqb c "\"%char then
        match rest with
        | String e rest' =>
            let simple (b : ascii) :=
              match string_body rest' with
              | Some (body, tl) => Some (String b body, tl)
              | None => None
              end in
            if Ascii.eqb e "034"%char then simple "034"%char
            else if Ascii.eqb e "\"%char then simple "\"%char
            else if Ascii.eqb e "/"%char then simple "/"%char
            else if Ascii.eqb e "b"%char then simple "008"%char
            else if Ascii.eqb e "f"%char then simple "012"%char
            else if Ascii.eqb e "n"%char then simple "010"%char
            else if Ascii.eqb e "r"%char then simple "013"%char
            else if Ascii.eqb e "t"%char then simple "009"%char
            else if Ascii.eqb e "u"%char then
              match rest' with
              | String h1 (String h2 (String h3 (String h4 rest''))) =>
                  match hex4 h1 h2 h3 h4 with
                  | None => None
                  | Some cp =>
                      let single (_ : unit) :=
                        match string_body rest'' with
                        | Some (body, tl) => Some (utf8 cp +:+ body, tl)
                        | None => None
                        end in
                      if high_surrogate cp then
                        match rest'' with
                        | String "\"%char
                            (String "u"%char
                               (String l1
                                  (String l2 (String l3 (String l4 rest3))))) =>
                            match hex4 l1 l2 l3 l4 with
                            | Some low =>
                                if low_surrogate low then
                                  match string_body rest3 with
                                  | Some (body, tl) =>
                                      Some (utf8 (joined cp low) +:+ body, tl)
                                  | None => None
                                  end
                                else single tt
                            | None => single tt
                            end
                        | _ => single tt
                        end
                      else single tt
                  end
              | _ => None
              end
            else None
        | EmptyString => None
        end
      else if (nat_of_ascii c <? 32)%nat then None
      else if (nat_of_ascii c <? 128)%nat then
        match string_body rest with
        | Some (body, tl) => Some (String c body, tl)
        | None => None
        end
      else
        let replaced (_ : unit) :=
          match string_body rest with
          | Some (body, tl) => Some (utf8 65533 +:+ body, tl)
          | None => None
          end in
        let '(size, lo, hi) := lead c in
        match rest with
        | String b1 r1 =>
            if (size =? 2)%N && between b1 lo hi then
              match string_body r1 with
              | Some (body, tl) => Some (String c (String b1 body), tl)
              | None => None
              end
            else
              match r1 with
              | String b2 r2 =>
                  if (size =? 3)%N && between b1 lo hi && continuation b2 then
                    match string_body r2 with
                    | Some (body, tl) =>
                        Some (String c (String b1 (String b2 body)), tl)
                    | None => None
                    end
                  else
                    match r2 with
                    | String b3 r3 =>
                        if (size =? 4)%N && between b1 lo hi
                           && continuation b2 && continuation b3
                        then
                          match string_body r3 with
                          | Some (body, tl) =>
                              Some (String c
                                      (String b1 (String b2 (String b3 body))),
                                    tl)
                          | None => None
                          end
                        else replaced tt
                    | EmptyString => replaced tt
                    end
              | EmptyString => replaced tt
              end
        | EmptyString => replaced tt
        end
  end.

(** A number literal: an optional minus sign, an integer part without a
    leading zero, an optional fraction and an optional exponent. *)
Definition number (s : string) : option (string * string) :=
  let '(sign, s1) :=
    match s with
    | String "-"%char tl => ("-", tl)
    | _ => (EmptyString, s)
    end in
  let int_part :=
    match s1 with
    | String "0"%char tl => Some ("0", tl)
    | _ => match span_digits s1 with
           | (EmptyString, _) => None
           | (ds, tl) => Some (ds, tl)
           end
    end in
  match int_part with
  | None => None
  | Some (ip, s2) =>
      let frac :=
        match s2 with
        | String "."%char tl =>
            match span_digits tl with
            | (EmptyString, _) => None
            | (ds, tl') => Some (String "."%char ds, tl')
            end
        | _ => Some (EmptyString, s2)
        end in
      match frac with
      | None => None
      | Some (fp, s3) =>
          let exponent (e : ascii) (tl : string) :=
            let '(sg, tl1) :=
              match tl with
              | String "+"%char r => ("+", r)
              | String "-"%char r => ("-", r)
              | _ => (EmptyString, tl)
              end in
            match span_digits tl1 with
            | (EmptyString, _) => None
            | (ds, tl2) => Some (String e (sg +:+ ds), tl2)
            end in
          let exp :=
            match s3 with
            | String "e"%char tl => exponent "e"%char tl
            | String "E"%char tl => exponent "E"%char tl
            | _ => Some (EmptyString, s3)
            end in
          match exp with
          | None => None
          | Some (ep, s4) => Some (sign +:+ ip +:+ fp +:+ ep, s4)
          end
      end
  end.

Definition literal (word : string) (v : value) (s : string)
  : option (value * string) :=
  if String.prefix word s
  then Some (v, String.substring (String.length word)
                  (String.length s - String.length word) s)
  else None.

(** The deepest nesting of arrays and objects the scanner accepts. *)
Definition maxNestingDepth : N := 10000.

(** Recursive descent over the input; [fuel] bounds the depth of the
    descent, every level of which consumes a character, and [depth] counts
    the arrays and objects that are open. *)
Fixpoint parse_value (fuel : nat) (depth : N) (s : string)
  : option (value * string) :=
  match fuel with
  | O => None
  | S fuel =>
      match skip_space s with
      | String "{"%char rest =>
          if (depth <? maxNestingDepth)%N then
            match skip_space rest with
            | String "}"%char tl => Some (Object [], tl)
            | _ =>
                match parse_members fuel (depth + 1) rest with
                | Some (ms, tl) => Some (Object ms, tl)
                | None => None
                end
            end
          else None
      | String "["%char rest =>
          if (depth <? maxNestingDepth)%N then
            match skip_space rest with
            | String "]"%char tl => Some (Array [], tl)
            | _ =>
                match parse_elements fuel (depth + 1) rest with
                | Some (vs, tl) => Some (Array vs, tl)
                | None => None
                end
            end
          else None
      | String "034"%char rest =>
          match string_body rest with
          | Some (body, tl) => Some (Str body, tl)
          | None => None
          end
      | String "t"%char _ as s' => literal "true" (Bool true) s'
      | String "f"%char _ as s' => literal "false" (Bool false) s'
      | String "n"%char _ as s' => literal "null" Null s'
      | s' =>
          match number s' with
          | Some (lit, tl) => Some (Number lit, tl)
          | None => None
          end
      end
  end
with parse_elements (fuel : nat) (depth : N) (s : string)
  : option (list value * string) :=
  match fuel with
  | O => None
  | S fuel =>
      match parse_value fuel depth s with
      | Some (v, tl) =>
          match skip_space tl with
          | String ","%char tl' =>
              match parse_elements fuel depth tl' with
              | Some (vs, tl'') => Some (v :: vs, tl'')
              | None => None
              end
          | String "]"%char tl' => Some ([v], tl')
          | _ => None
          end
      | None => None
      end
  end
with parse_members (fuel : nat) (depth : N) (s : string)
  : option (list (string * value) * string) :=
  match fuel with
  | O => None
  | S fuel =>
      match skip_space s with
      | String "034"%char rest =>
          match string_body rest with
          | Some (key, tl) =>
              match skip_space tl with
              | String ":"%char tl' =>
                  match parse_value fuel depth tl' with
                  | Some (v, tl'') =>
                      match skip_space tl'' with
                      | String ","%char tl3 =>
                          match parse_members fuel depth tl3 with
                          | Some (ms, tl4) => Some ((key, v) :: ms, tl4)
                          | None => None
                          end
                      | String "}"%char tl3 => Some ([(key, v)], tl3)
                      | _ => None
                      end
                  | None => None
                  end
              | _ => None
              end
          | None => None
          end
      | _ => None
      end
  end.

(** A whole document: one value, then only white space. *)
Definition parse (s : string) : option value :=
  match parse_value (2 * String.length s + 4) 0 s with
  | Some (v, tl) =>
      match skip_space tl with
      | EmptyString => Some v
      | _ => None
      end
  | None => None
  end.

Definition SyntaxError : error := LibraryError "json" "SyntaxError".
Definition UnmarshalTypeError : error := LibraryError "json" "UnmarshalTypeError".

(** *** Matching a member key against a struct field

    The decoder takes the field whose name equals the key, and otherwise
    the first one equal to it under [equalFoldRight]: ASCII letters match
    regardless of case, and the two letters [s] and [k] of a field name
    also match U+017F and U+212A. *)
Definition is_upper_letter (n : N) : bool := (65 <=? n)%N && (n <=? 90)%N.

Definition case_mask (c : ascii) : N :=
  let n := N_of_ascii c in if N.testbit n 5 then (n - 32)%N else n.

Fixpoint equal_fold (name key : string) : bool :=
  match name with
  | EmptyString => match key with EmptyString => true | _ => false end
  | String sb name' =>
      match key with
      | EmptyString => false
      | String tb key' =>
          if (N_of_ascii tb <? 128)%N then
            (Ascii.eqb sb tb
             || (is_upper_letter (case_mask sb)
                 && (case_mask sb =? case_mask tb)%N))
            && equal_fold name' key'
          else
            match case_mask sb, key with
            | 83%N, String "197"%char (String "191"%char key'') =>
                equal_fold name' key''
            | 75%N, String "226"%char
                      (String "132"%char (String "170"%char key'')) =>
                equal_fold name' key''
            | _, _ => false
            end
      end
  end.

Definition match_field (fields : list string) (key : string) : option string :=
  match find (String.eqb key) fields with
  | Some f => Some f
  | None => find (fun f => equal_fold f key) fields
  end.

(** A struct all of whose fields are strings, decoded member by member
    into the values the struct already holds: a later key overwrites an
    earlier one, [null] leaves the field alone, any other kind of value
    is a type error. *)
Fixpoint decode_members (fields : list string)
    (members : list (string * value)) (acc : gmap string string)
  : result (gmap string string) :=
  match members with
  | [] => Ok acc
  | (key, v) :: members' =>
      match match_field fields key with
      | None => decode_members fields members' acc
      | Some f =>
          match v with
          | Str s => decode_members fields members' (<[f := s]> acc)
          | Null => decode_members fields members' acc
          | _ => Err UnmarshalTypeError
          end
      end
  end.

Definition decode_struct (fields : list string) (v : value)
  : result (gmap string string) :=
  match v with
  | Null => Ok ∅
  | Object members => decode_members fields members ∅
  | _ => Err UnmarshalTypeError
  end.

Definition field (m : gmap string string) (name : string) : string :=
  default EmptyString (m !! name).

(** *** Encoding of a string *)

(** The double quote, character 34. *)
Definition dq : string := String "034"%char EmptyString.

Definition hex_char (n : N) : ascii :=
  if (n <? 10)%N then ascii_of_N (48 + n) else ascii_of_N (87 + n).

Definition escape (c : ascii) : string :=
  let n := N_of_ascii c in
  if (n =? 34)%N then String "\"%char dq
  else if (n =? 92)%N then "\\"
  else if (n =? 10)%N then "\n"
  else if (n =? 13)%N then "\r"
  else if (n =? 9)%N then "\t"
  else if (n <? 32)%N || (n =? 60)%N || (n =? 62)%N || (n =? 38)%N then
    "\u00" +:+ String (hex_char (n / 16)) (String (hex_char (n mod 16)) EmptyString)
  else String c EmptyString.

Fixpoint escape_all (s : string) : string :=
  match s with
  | EmptyString => EmptyString
  | String c rest => escape c +:+ escape_all rest
  end.

Definition quote (s : string) : string :=
  dq +:+ escape_all s +:+ dq.

(** An object whose members are all strings, as the encoder writes it. *)
Definition object (members : list (string * string)) : string :=
  "{"
  +:+ String.concat ","
        (map (fun member => quote (fst member) +:+ ":" +:+ quote (snd member))
           members)
  +:+ "}".

End JSON.

(** ** Data model *)

(** Package [models] of the BBS: the task definition and its action tree. *)
Module models.

Record EnvironmentVariable : Type :=
  { Name : string; Value : string }.

Record SecurityGroupRule : Type :=
  { Protocol : string;
    Destinations : list string;
    Ports : list Z;
    PortRange : option (Z * Z) }.

Definition TCPProtocol : string := "tcp".

Record DownloadAction : Type :=
  { Artifact : string;
    From : string;
    To : string;
    CacheKey : string;
    DownloadUser : string }.

Record UploadAction : Type :=
  { UploadArtifact : string;
    UploadFrom : string;
    UploadTo : string;
    UploadUser : string }.

Record ResourceLimits : Type :=
  { Nofile : option Z }.

(** An element of [Env] is a pointer, [None] when nil. *)
Record RunAction : Type :=
  { Path : string;
    Args : list string;
    Env : list (option EnvironmentVariable);
    Limits : option ResourceLimits;
    User : string }.

Inductive ActionInterface : Type :=
| Download (a : DownloadAction)
| Upload (a : UploadAction)
| Run (a : RunAction)
| Parallel (actions : list ActionInterface)
| Serial (actions : list ActionInterface)
| Try (a : ActionInterface)
| EmitProgress (a : ActionInterface)
    (StartMessage SuccessMessage FailureMessagePrefix : string)
| Timeout (a : ActionInterface) (timeout : Z).

Definition EmitProgressFor (a : ActionInterface)
    (start success failurePrefix : string) : ActionInterface :=
  EmitProgress a start success failurePrefix.

(** [Action] is a pointer to the wrapped action tree, nil in the zero value
    of the struct; [MemoryMb] and [DiskMb] are int32. *)
Record TaskDefinition : Type :=
  { RootFs : string;
    ResultFile : string;
    Privileged : bool;
    MemoryMb : Z;
    DiskMb : Z;
    CpuWeight : Z;
    LogSource : string;
    LogGuid : string;
    MetricsGuid : string;
    EgressRules : list SecurityGroupRule;
    CompletionCallbackUrl : string;
    Annotation : string;
    Action : option ActionInterface }.

Definition WrapAction (a : ActionInterface) : option ActionInterface := Some a.

(** [&models.TaskDefinition{}] *)
Definition empty : TaskDefinition :=
  {| RootFs := ""; ResultFile := ""; Privileged := false;
     MemoryMb := 0; DiskMb := 0; CpuWeight := 0;
     LogSource := ""; LogGuid := ""; MetricsGuid := "";
     EgressRules := []; CompletionCallbackUrl := ""; Annotation := "";
     Action := None |}.

Record TaskCallbackResponse : Type :=
  { TaskGuid : string;
    CallbackAnnotation : string;
    Failed : bool;
    FailureReason : string;
    Result : string }.

End models.

(** Package [cc_messages]: what the Cloud Controller sends and receives. *)
Module cc_messages.

(** [MemoryMB], [DiskMB], [FileDescriptors] and [Timeout] are of type [int];
    [LifecycleData] is a pointer to the raw JSON, [None] when nil; the
    elements of [Environment] are pointers, those of [EgressRules] too but
    the backend never looks inside them. *)
Record StagingRequestFromCC : Type :=
  { AppId : string;
    LogGuid : string;
    FileDescriptors : Z;
    MemoryMB : Z;
    DiskMB : Z;
    Environment : list (option models.EnvironmentVariable);
    EgressRules : list models.SecurityGroupRule;
    Timeout : Z;
    Lifecycle : string;
    LifecycleData : option string }.

Record DockerStagingData : Type :=
  { DockerImageUrl : string;
    DockerLoginServer : string;
    DockerUser : string;
    DockerPassword : string;
    DockerEmail : string }.

Record StagingTaskAnnotation : Type :=
  { AnnotationLifecycle : string }.

Record StagingError : Type :=
  { Id : string; Message : string }.

Record StagingResponseForCC : Type :=
  { Error : option StagingError;
    ExecutionMetadata : string;
    DetectedStartCommand : gmap string string;
    ResponseLifecycleData : option string }.

(** [cc_messages.StagingResponseForCC{}] *)
Definition empty : StagingResponseForCC :=
  {| Error := None; ExecutionMetadata := "";
     DetectedStartCommand := ∅; ResponseLifecycleData := None |}.

(** [json.Marshal] of an annotation: the struct has the one field, tagged
    [lifecycle]. *)
Definition Marshal (a : StagingTaskAnnotation) : string :=
  JSON.object [("lifecycle", AnnotationLifecycle a)].

(** [json.Unmarshal] into a zero annotation. *)
Definition Unmarshal (data : string) : result StagingTaskAnnotation :=
  match JSON.parse data with
  | None => Err JSON.SyntaxError
  | Some v =>
      match JSON.decode_struct ["lifecycle"] v with
      | Ok m => Ok {| AnnotationLifecycle := JSON.field m "lifecycle" |}
      | Err e => Err e
      end
  end.

End cc_messages.

(** Package [docker_app_lifecycle]: what the builder writes as its result. *)
Module docker_app_lifecycle.

Record StagingDockerResult : Type :=
  { ExecutionMetadata : string;
    DetectedStartCommand : gmap string string;
    DockerImage : string }.

End docker_app_lifecycle.

(** Package [net/url]. *)
Module url.

Record URL : Type :=
  { Scheme : string;
    Opaque : string;
    Host : string;
    Path : string;
    RawQuery : string;
    Fragment : string }.

End url.

(** Package [net/http]: a response carries a status and a body that
    [ioutil.ReadAll] either reads to the end or fails on. *)
Module http.

Record Response : Type :=
  { StatusCode : Z;
    Body : result string }.

End http.

(** ** The outside world

    The responses the consul agent will give, in the order of the requests
    to come, and the URLs requested so far.  With nothing left to answer a
    request fails at the transport. *)
Record World : Type :=
  { pending : list (result http.Response);
    requests : list string }.

Definition ConnectionRefused : error := LibraryError "net/http" "connection refused".

Definition http_Get (target : string) (w : World) : result http.Response * World :=
  match pending w with
  | [] =>
      (Err ConnectionRefused,
       {| pending := []; requests := requests w ++ [target] |})
  | r :: rest =>
      (r, {| pending := rest; requests := requests w ++ [target] |})
  end.

(** ** What the backend takes from other packages

    The standard library's URL and address parsers, the JSON struct tags
    of the lifecycle messages and the helpers of sibling packages are not
    part of the backend; it is verified for whatever they compute. *)
Class Externals : Type :=
  { url_Parse : string -> result url.URL;
    url_ParseRequestURI : string -> result url.URL;
    url_String : url.URL -> string;
    net_SplitHostPort : string -> result (string * string);
    PreloadedRootFS : string -> string;
    Unmarshal_DockerStagingData : string -> result cc_messages.DockerStagingData;
    Unmarshal_StagingDockerResult :
      string -> result docker_app_lifecycle.StagingDockerResult;
    BuildDockerStagingData : string -> result (option string) }.

(** ** Helpers from the standard library *)

(** [strings.Join] *)
Fixpoint strings_Join (elems : list string) (sep : string) : string :=
  match elems with
  | [] => ""
  | [e] => e
  | e :: rest => e +:+ sep +:+ strings_Join rest sep
  end.

(** [path.Dir] on a path that is already clean: all but the last element. *)
Fixpoint path_Dir_aux (p : string) : option string :=
  match p with
  | EmptyString => None
  | String c rest =>
      match path_Dir_aux rest with
      | Some d => Some (String c d)
      | None => if Ascii.eqb c "/"%char then Some EmptyString else None
      end
  end.

Definition path_Dir (p : string) : string :=
  match path_Dir_aux p with
  | None => "."
  | Some EmptyString => "/"
  | Some d => d
  end.

(** [err.Error()] *)
Definition error_text (e : error) : string :=
  match e with
  | ErrMissingAppId => "missing app id"
  | ErrNoCompilerDefined => "no compiler defined for requested stack"
  | ErrMissingDockerImageUrl => "missing docker image download url"
  | ErrMissingDockerRegistry => "missing docker registry"
  | ErrMissingDockerCredentials => "missing docker credentials"
  | ErrInvalidDockerRegistryAddress => "invalid docker registry address"
  | ErrorString msg => msg
  | LibraryError _ msg => msg
  end.

(** ** The backend package *)

Definition DockerLifecycleName : string := "docker".
Definition DockerBuilderExecutablePath : string := "/tmp/docker_app_lifecycle/builder".
Definition DockerBuilderOutputPath : string := "/tmp/docker-result/result.json".

(** Modelled from the spec: the constant [TaskLogSource] of the backend
    package, declared outside the sources at hand; section 6 gives
    [task_log_source = "STG"]. *)
Definition TaskLogSource : string := "STG".

(** Modelled from the spec: the constant [DefaultStagingTimeout], declared
    outside the sources at hand; section 6 gives 15 minutes. *)
Definition DefaultStagingTimeout : Z := 15 * Minute.

(** Modelled from the spec: the struct [Config], declared outside the
    sources at hand.  Its fields are the ones the docker backend and the
    test suites read or set, together with the three minimum tunables of
    section 2, which [cmd/stager/main.go] fills from the flags
    [minMemoryMB], [minDiskMB] and [minFileDescriptors]. *)
Record Config : Type :=
  { TaskDomain : string;
    StagerURL : string;
    FileServerURL : string;
    CCUploaderURL : string;
    ConsulCluster : string;
    DockerRegistryAddress : string;
    InsecureDockerRegistry : bool;
    Lifecycles : gmap string string;
    DockerStagingStack : string;
    SkipCertVerify : bool;
    Sanitizer : string -> cc_messages.StagingError;
    MinMemoryMB : Z;
    MinDiskMB : Z;
    MinFileDescriptors : Z }.

(** Modelled from the spec: the method [Config.CallbackURL], declared with
    the struct; section 4.1 gives
    [stager_url + "/v1/staging/" + g + "/completed"]. *)
Definition CallbackURL (c : Config) (stagingGuid : string) : string :=
  StagerURL c +:+ "/v1/staging/" +:+ stagingGuid +:+ "/completed".

(** Modelled from the spec: [fileserver.Routes.CreatePathForRoute] at the
    static route, from the file-server package; section 4.1 gives the fixed
    literal [/v1/static/]. *)
Definition CreatePathForRoute_StaticRoute : result string := Ok "/v1/static/".

(** Modelled from the spec: [urljoiner.Join], from the gunk package;
    sections 4.1 and 8 give the joined URL as
    [file_server_url + "/v1/static/" + value]. *)
Definition urljoiner_Join (base : string) (segments : list string) : string :=
  base +:+ String.concat "" segments.

(** The logger of the struct only writes log lines and is left out. *)
Record dockerBackend : Type :=
  { config : Config }.

Record consulServiceInfo : Type :=
  { Address : string }.

(** [json.Unmarshal] of a response body into a nil [[]consulServiceInfo]:
    [null] leaves the slice nil, an array gives one struct per element. *)
Fixpoint decode_services (vs : list JSON.value) : result (list consulServiceInfo) :=
  match vs with
  | [] => Ok []
  | v :: vs' =>
      match JSON.decode_struct ["Address"] v, decode_services vs' with
      | Ok m, Ok l => Ok ({| Address := JSON.field m "Address" |} :: l)
      | Err e, _ => Err e
      | _, Err e => Err e
      end
  end.

Definition Unmarshal_services (body : string) : result (list consulServiceInfo) :=
  match JSON.parse body with
  | None => Err JSON.SyntaxError
  | Some JSON.Null => Ok []
  | Some (JSON.Array vs) => decode_services vs
  | Some _ => Err JSON.UnmarshalTypeError
  end.

Section Backend.

Context {lib : Externals}.

Definition compilerDownloadURL (backend : dockerBackend) : result url.URL :=
  let lifecycleFilename := default "" (Lifecycles (config backend) !! "docker") in
  if String.eqb lifecycleFilename "" then Err ErrNoCompilerDefined
  else
    match url_Parse lifecycleFilename with
    | Err _ => Err (ErrorString "couldn't parse compiler URL")
    | Ok parsed =>
        if String.eqb (url.Scheme parsed) "http"
           || String.eqb (url.Scheme parsed) "https"
        then Ok parsed
        else if String.eqb (url.Scheme parsed) "" then
          match CreatePathForRoute_StaticRoute with
          | Err err =>
              Err (ErrorString ("couldn't generate the compiler download path: "
                                +:+ error_text err))
          | Ok staticPath =>
              let urlString :=
                urljoiner_Join (FileServerURL (config backend))
                  [staticPath; lifecycleFilename] in
              match url_ParseRequestURI urlString with
              | Err err =>
                  Err (ErrorString ("failed to parse compiler download URL: "
                                    +:+ error_text err))
              | Ok u => Ok u
              end
          end
        else Err (ErrorString ("unknown scheme: '" +:+ url.Scheme parsed +:+ "'"))
    end.

Definition len (s : string) : Z := Z.of_nat (String.length s).

Definition validateRequest (backend : dockerBackend)
    (stagingRequest : cc_messages.StagingRequestFromCC)
    (dockerData : cc_messages.DockerStagingData) : option error :=
  if (len (cc_messages.AppId stagingRequest) =? 0)%Z then Some ErrMissingAppId
  else if (len (cc_messages.DockerImageUrl dockerData) =? 0)%Z
  then Some ErrMissingDockerImageUrl
  else
    let credentialsPresent :=
      (0 <? len (cc_messages.DockerUser dockerData)
            + len (cc_messages.DockerPassword dockerData)
            + len (cc_messages.DockerEmail dockerData))%Z in
    if credentialsPresent
       && ((len (cc_messages.DockerUser dockerData) =? 0)%Z
           || (len (cc_messages.DockerPassword dockerData) =? 0)%Z
           || (len (cc_messages.DockerEmail dockerData) =? 0)%Z)
    then Some ErrMissingDockerCredentials
    else None.

Definition dockerTimeout (request : cc_messages.StagingRequestFromCC) : Z :=
  if (0 <? cc_messages.Timeout request)%Z
  then duration_mul (cc_messages.Timeout request) Second
  else DefaultStagingTimeout.

Definition registryRule (registry : consulServiceInfo) : models.SecurityGroupRule :=
  {| models.Protocol := models.TCPProtocol;
     models.Destinations := [Address registry];
     models.Ports := [8080];
     models.PortRange := None |}.

Fixpoint addDockerRegistryRules (egressRules : list models.SecurityGroupRule)
    (registries : list consulServiceInfo) : list models.SecurityGroupRule :=
  match registries with
  | [] => egressRules
  | registry :: rest =>
      addDockerRegistryRules (egressRules ++ [registryRule registry]) rest
  end.

Fixpoint buildDockerRegistryAddresses_from (registries : list string)
    (services : list consulServiceInfo) : list string :=
  match services with
  | [] => registries
  | service :: rest =>
      buildDockerRegistryAddresses_from (registries ++ [Address service]) rest
  end.

Definition buildDockerRegistryAddresses (services : list consulServiceInfo)
  : list string :=
  buildDockerRegistryAddresses_from [] services.

Definition getDockerRegistryServices (consulCluster : string) (w : World)
  : result (list consulServiceInfo) * World :=
  match http_Get (consulCluster +:+ "/v1/catalog/service/docker-registry") w with
  | (Err err, w') => (Err err, w')
  | (Ok response, w') =>
      match http.Body response with
      | Err err => (Err err, w')
      | Ok body =>
          match Unmarshal_services body with
          | Err err => (Err err, w')
          | Ok ips =>
              if (Z.of_nat (length ips) =? 0)%Z then (Err ErrMissingDockerRegistry, w')
              else (Ok ips, w')
          end
      end
  end.

Definition addDockerCachingArguments (args : list string) (registryIPs : string)
    (insecureRegistry : bool) (host port : string)
    (stagingData : cc_messages.DockerStagingData) : result (list string) :=
  let args := args ++ ["-cacheDockerImage"] in
  let args := args ++ ["-dockerRegistryHost"; host] in
  let args := args ++ ["-dockerRegistryPort"; port] in
  let args := args ++ ["-dockerRegistryIPs"; registryIPs] in
  let args :=
    if insecureRegistry
    then args ++ ["-insecureDockerRegistries"; host +:+ ":" +:+ port]
    else args in
  let args :=
    if (0 <? len (cc_messages.DockerLoginServer stagingData))%Z
    then args ++ ["-dockerLoginServer"; cc_messages.DockerLoginServer stagingData]
    else args in
  let args :=
    if (0 <? len (cc_messages.DockerUser stagingData))%Z
    then args ++ ["-dockerUser"; cc_messages.DockerUser stagingData;
                  "-dockerPassword"; cc_messages.DockerPassword stagingData;
                  "-dockerEmail"; cc_messages.DockerEmail stagingData]
    else args in
  Ok args.

(** The loop of [BuildRecipe] over the environment, which stops at the
    first variable [DIEGO_DOCKER_CACHE] with value [true]; reading the name
    of a nil element panics. *)
Fixpoint cacheDockerImage (environment : list (option models.EnvironmentVariable))
  : outcome bool :=
  match environment with
  | [] => Returned false
  | None :: _ => Panicked "invalid memory address or nil pointer dereference"
  | Some envVar :: rest =>
      if String.eqb (models.Name envVar) "DIEGO_DOCKER_CACHE"
         && String.eqb (models.Value envVar) "true"
      then Returned true
      else cacheDockerImage rest
  end.

Definition BuildResult : Type :=
  models.TaskDefinition * string * string * option error.

(** [return &models.TaskDefinition{}, "", "", err] *)
Definition failure (err : error) : BuildResult :=
  (models.empty, "", "", Some err).

Definition downloadBuilder (compilerURL : url.URL) : models.ActionInterface :=
  models.EmitProgressFor
    (models.Download
       {| models.Artifact := "";
          models.From := url_String compilerURL;
          models.To := path_Dir DockerBuilderExecutablePath;
          models.CacheKey := "docker-lifecycle";
          models.DownloadUser := "vcap" |})
    "" "" "Failed to set up docker environment".

Definition baseArguments (lifecycleData : cc_messages.DockerStagingData)
  : list string :=
  ["-outputMetadataJSONFilename"; DockerBuilderOutputPath;
   "-dockerRef"; cc_messages.DockerImageUrl lifecycleData].

Definition runBuilder (request : cc_messages.StagingRequestFromCC)
    (runActionArguments : list string) (runAs : string)
  : models.ActionInterface :=
  let fileDescriptorLimit := uint64 (cc_messages.FileDescriptors request) in
  models.EmitProgressFor
    (models.Run
       {| models.Path := DockerBuilderExecutablePath;
          models.Args := runActionArguments;
          models.Env := cc_messages.Environment request;
          models.Limits := Some {| models.Nofile := Some fileDescriptorLimit |};
          models.User := runAs |})
    "Staging..." "Staging Complete" "Staging Failed".

(** The end of [BuildRecipe], from the run action on; [egressRules] is what
    [request.EgressRules] holds by then. *)
Definition taskDefinition (backend : dockerBackend) (stagingGuid : string)
    (request : cc_messages.StagingRequestFromCC)
    (egressRules : list models.SecurityGroupRule)
    (compilerURL : url.URL) (runActionArguments : list string)
    (runAs : string) : models.TaskDefinition :=
  let actions :=
    [downloadBuilder compilerURL] ++ [runBuilder request runActionArguments runAs] in
  let annotationJson :=
    cc_messages.Marshal
      {| cc_messages.AnnotationLifecycle := DockerLifecycleName |} in
  {| models.RootFs := PreloadedRootFS (DockerStagingStack (config backend));
     models.ResultFile := DockerBuilderOutputPath;
     models.Privileged := true;
     models.MemoryMb := int32 (cc_messages.MemoryMB request);
     models.DiskMb := int32 (cc_messages.DiskMB request);
     models.CpuWeight := 0;
     models.LogSource := TaskLogSource;
     models.LogGuid := cc_messages.LogGuid request;
     models.MetricsGuid := "";
     models.EgressRules := egressRules;
     models.CompletionCallbackUrl := CallbackURL (config backend) stagingGuid;
     models.Annotation := annotationJson;
     models.Action :=
       models.WrapAction
         (models.Timeout (models.Serial actions) (dockerTimeout request)) |}.

Definition BuildRecipe (backend : dockerBackend) (stagingGuid : string)
    (request : cc_messages.StagingRequestFromCC) (w : World)
  : outcome BuildResult * World :=
  match cc_messages.LifecycleData request with
  | None => (Panicked "invalid memory address or nil pointer dereference", w)
  | Some raw =>
  match Unmarshal_DockerStagingData raw with
  | Err err => (Returned (failure err), w)
  | Ok lifecycleData =>
  match validateRequest backend request lifecycleData with
  | Some err => (Returned (failure err), w)
  | None =>
  match compilerDownloadURL backend with
  | Err err => (Returned (failure err), w)
  | Ok compilerURL =>
  match cacheDockerImage (cc_messages.Environment request) with
  | Panicked msg => (Panicked msg, w)
  | Returned true =>
      match net_SplitHostPort (DockerRegistryAddress (config backend)) with
      | Err _ => (Returned (failure ErrInvalidDockerRegistryAddress), w)
      | Ok (host, port) =>
          match getDockerRegistryServices (ConsulCluster (config backend)) w with
          | (Err err, w') => (Returned (failure err), w')
          | (Ok registryServices, w') =>
              let registryRules :=
                addDockerRegistryRules (cc_messages.EgressRules request)
                  registryServices in
              let egressRules := cc_messages.EgressRules request ++ registryRules in
              let registryIPs :=
                strings_Join (buildDockerRegistryAddresses registryServices) "," in
              match addDockerCachingArguments (baseArguments lifecycleData)
                      registryIPs (InsecureDockerRegistry (config backend))
                      host port lifecycleData with
              | Err err => (Returned (failure err), w')
              | Ok runActionArguments =>
                  (Returned
                     (taskDefinition backend stagingGuid request egressRules
                        compilerURL runActionArguments "root",
                      stagingGuid, TaskDomain (config backend), None),
                   w')
              end
          end
      end
  | Returned false =>
      (Returned
         (taskDefinition backend stagingGuid request
            (cc_messages.EgressRules request) compilerURL
            (baseArguments lifecycleData) "vcap",
          stagingGuid, TaskDomain (config backend), None),
       w)
  end end end end end.

(** What [BuildStagingResponse] does once the annotation is decoded. *)
Definition buildResponse (backend : dockerBackend)
    (taskResponse : models.TaskCallbackResponse)
  : result cc_messages.StagingResponseForCC :=
  if models.Failed taskResponse then
    Ok {| cc_messages.Error :=
            Some (Sanitizer (config backend) (models.FailureReason taskResponse));
          cc_messages.ExecutionMetadata := "";
          cc_messages.DetectedStartCommand := ∅;
          cc_messages.ResponseLifecycleData := None |}
  else
    match Unmarshal_StagingDockerResult (models.Result taskResponse) with
    | Err err => Err err
    | Ok result =>
        match BuildDockerStagingData (docker_app_lifecycle.DockerImage result) with
        | Err err => Err err
        | Ok dockerLifecycleData =>
            Ok {| cc_messages.Error := None;
                  cc_messages.ExecutionMetadata :=
                    docker_app_lifecycle.ExecutionMetadata result;
                  cc_messages.DetectedStartCommand :=
                    docker_app_lifecycle.DetectedStartCommand result;
                  cc_messages.ResponseLifecycleData := dockerLifecycleData |}
        end
    end.

Definition BuildStagingResponse (backend : dockerBackend)
    (taskResponse : models.TaskCallbackResponse)
  : result cc_messages.StagingResponseForCC :=
  match cc_messages.Unmarshal (models.CallbackAnnotation taskResponse) with
  | Err err => Err err
  | Ok annotation => buildResponse backend taskResponse
  end.

End Backend.

(** ** A reference instance of the external functions

    Enough of [net/url], [net] and the message decoders to run the backend
    on the configurations of its test suite: URLs are split into scheme,
    authority, path, query and fragment without percent-decoding or host
    validation, and addresses are split at their last colon. *)
Module Reference.

Definition is_letter (c : ascii) : bool :=
  let n := N_of_ascii c in
  ((97 <=? n)%N && (n <=? 122)%N) || ((65 <=? n)%N && (n <=? 90)%N).

Definition is_scheme_extra (c : ascii) : bool :=
  JSON.is_digit c || Ascii.eqb c "+"%char || Ascii.eqb c "-"%char
  || Ascii.eqb c "."%char.

(** [getscheme]: the scan stops at the first colon or at the first
    character a scheme cannot hold. *)
Fixpoint getscheme_from (first : bool) (s : string) : result (option (string * string)) :=
  match s with
  | EmptyString => Ok None
  | String c rest =>
      if is_letter c then
        match getscheme_from false rest with
        | Ok (Some (sch, tl)) => Ok (Some (String c sch, tl))
        | r => r
        end
      else if is_scheme_extra c then
        if first then Ok None
        else
          match getscheme_from false rest with
          | Ok (Some (sch, tl)) => Ok (Some (String c sch, tl))
          | r => r
          end
      else if Ascii.eqb c ":"%char then
        if first then Err (LibraryError "net/url" "missing protocol scheme")
        else Ok (Some (EmptyString, rest))
      else Ok None
  end.

Definition getscheme (rawurl : string) : result (string * string) :=
  match getscheme_from true rawurl with
  | Ok (Some (sch, tl)) => Ok (sch, tl)
  | Ok None => Ok (EmptyString, rawurl)
  | Err e => Err e
  end.

Definition to_lower (c : ascii) : ascii :=
  let n := N_of_ascii c in
  if (65 <=? n)%N && (n <=? 90)%N then ascii_of_N (n + 32) else c.

Fixpoint lower (s : string) : string :=
  match s with
  | EmptyString => EmptyString
  | String c rest => String (to_lower c) (lower rest)
  end.

(** The text before the first [sep] and the text after it. *)
Fixpoint cut (sep : ascii) (s : string) : string * option string :=
  match s with
  | EmptyString => (EmptyString, None)
  | String c rest =>
      if Ascii.eqb c sep then (EmptyString, Some rest)
      else let '(before, after) := cut sep rest in (String c before, after)
  end.

Definition parse (viaRequest : bool) (rawurl : string) : result url.URL :=
  if viaRequest && String.eqb rawurl "" then Err (LibraryError "net/url" "empty url")
  else
    match getscheme rawurl with
    | Err e => Err e
    | Ok (sch, rest) =>
        let '(rest, query) := cut "?"%char rest in
        let query := default EmptyString query in
        if negb (String.prefix "/" rest) then
          if negb (String.eqb sch "") then
            Ok {| url.Scheme := lower sch; url.Opaque := rest; url.Host := "";
                  url.Path := ""; url.RawQuery := query; url.Fragment := "" |}
          else if viaRequest then
            Err (LibraryError "net/url" "invalid URI for request")
          else
            Ok {| url.Scheme := ""; url.Opaque := ""; url.Host := "";
                  url.Path := rest; url.RawQuery := query; url.Fragment := "" |}
        else
          match rest with
          | String "/"%char (String "/"%char authority) =>
              let '(host, path) := cut "/"%char authority in
              Ok {| url.Scheme := lower sch; url.Opaque := ""; url.Host := host;
                    url.Path := match path with
                                | Some p => String "/"%char p
                                | None => ""
                                end;
                    url.RawQuery := query; url.Fragment := "" |}
          | _ =>
              Ok {| url.Scheme := lower sch; url.Opaque := ""; url.Host := "";
                    url.Path := rest; url.RawQuery := query; url.Fragment := "" |}
          end
    end.

(** The error of a failed parse, of type [url.Error], with the text of its
    [Error] method. The text is quoted as [%q]
    quotes one without quotes, backslashes or characters that do not
    print. *)
Definition parseError (rawurl : string) (cause : error) : error :=
  LibraryError "net/url"
    ("parse " +:+ JSON.dq +:+ rawurl +:+ JSON.dq +:+ ": " +:+ error_text cause).

Definition Parse (rawurl : string) : result url.URL :=
  let '(u, frag) := cut "#"%char rawurl in
  match parse false u with
  | Err e => Err (parseError u e)
  | Ok parsed =>
      Ok {| url.Scheme := url.Scheme parsed; url.Opaque := url.Opaque parsed;
            url.Host := url.Host parsed; url.Path := url.Path parsed;
            url.RawQuery := url.RawQuery parsed;
            url.Fragment := default EmptyString frag |}
  end.

Definition ParseRequestURI (rawurl : string) : result url.URL :=
  match parse true rawurl with
  | Err e => Err (parseError rawurl e)
  | Ok parsed => Ok parsed
  end.

Definition URLString (u : url.URL) : string :=
  (if String.eqb (url.Scheme u) "" then "" else url.Scheme u +:+ ":")
  +:+ (if String.eqb (url.Opaque u) ""
       then (if String.eqb (url.Host u) "" then "" else "//" +:+ url.Host u)
            +:+ url.Path u
       else url.Opaque u)
  +:+ (if String.eqb (url.RawQuery u) "" then "" else "?" +:+ url.RawQuery u)
  +:+ (if String.eqb (url.Fragment u) "" then "" else "#" +:+ url.Fragment u).

(** The text before the last colon and the text after it. *)
Fixpoint split_last_colon (s : string) : option (string * string) :=
  match s with
  | EmptyString => None
  | String c rest =>
      match split_last_colon rest with
      | Some (h, p) => Some (String c h, p)
      | None => if Ascii.eqb c ":"%char then Some (EmptyString, rest) else None
      end
  end.

Definition SplitHostPort (hostport : string) : result (string * string) :=
  match split_last_colon hostport with
  | Some hp => Ok hp
  | None => Err (LibraryError "net" "missing port in address")
  end.

Definition dockerStagingDataFields : list string :=
  ["docker_image"; "docker_login_server"; "docker_user"; "docker_password";
   "docker_email"].

Definition UnmarshalDockerStagingData (data : string)
  : result cc_messages.DockerStagingData :=
  match JSON.parse data with
  | None => Err JSON.SyntaxError
  | Some v =>
      match JSON.decode_struct dockerStagingDataFields v with
      | Err e => Err e
      | Ok m =>
          Ok {| cc_messages.DockerImageUrl := JSON.field m "docker_image";
                cc_messages.DockerLoginServer := JSON.field m "docker_login_server";
                cc_messages.DockerUser := JSON.field m "docker_user";
                cc_messages.DockerPassword := JSON.field m "docker_password";
                cc_messages.DockerEmail := JSON.field m "docker_email" |}
      end
  end.

(** Of a builder result only the string fields are read back; the start
    commands are left empty. *)
Definition UnmarshalStagingDockerResult (data : string)
  : result docker_app_lifecycle.StagingDockerResult :=
  match JSON.parse data with
  | None => Err JSON.SyntaxError
  | Some v =>
      match JSON.decode_struct ["execution_metadata"; "docker_image"]
              match v with
              | JSON.Object ms =>
                  JSON.Object
                    (filter (fun kv => negb (JSON.equal_fold "detected_start_command" (fst kv))) ms)
              | _ => v
              end with
      | Err e => Err e
      | Ok m =>
          Ok {| docker_app_lifecycle.ExecutionMetadata :=
                  JSON.field m "execution_metadata";
                docker_app_lifecycle.DetectedStartCommand := ∅;
                docker_app_lifecycle.DockerImage := JSON.field m "docker_image" |}
      end
  end.

Definition BuildStagingData (dockerImage : string) : result (option string) :=
  Ok (Some (JSON.object [("docker_image", dockerImage)])).

#[export] Instance externals : Externals :=
  {| url_Parse := Parse;
     url_ParseRequestURI := ParseRequestURI;
     url_String := URLString;
     net_SplitHostPort := SplitHostPort;
     PreloadedRootFS := fun stack => "preloaded:" +:+ stack;
     Unmarshal_DockerStagingData := UnmarshalDockerStagingData;
     Unmarshal_StagingDockerResult := UnmarshalStagingDockerResult;
     BuildDockerStagingData := BuildStagingData |}.

End Reference.

(** ** Notions of the specification *)

(** Image-caching mode is requested by an environment variable
    [DIEGO_DOCKER_CACHE] with value [true]. *)
Definition isCachingVariable (v : models.EnvironmentVariable) : Prop :=
  models.Name v = "DIEGO_DOCKER_CACHE" /\ models.Value v = "true".

Definition cachingRequested (request : cc_messages.StagingRequestFromCC) : Prop :=
  exists v, In (Some v) (cc_messages.Environment request) /\ isCachingVariable v.

Definition nonEmpty (s : string) : bool := negb (String.eqb s "").

(** Some of user, password and email are given, but not all of them. *)
Definition partialCredentials (d : cc_messages.DockerStagingData) : bool :=
  (nonEmpty (cc_messages.DockerUser d)
   || nonEmpty (cc_messages.DockerPassword d)
   || nonEmpty (cc_messages.DockerEmail d))
  && negb (nonEmpty (cc_messages.DockerUser d)
           && nonEmpty (cc_messages.DockerPassword d)
           && nonEmpty (cc_messages.DockerEmail d)).

(** User, password and email are all given. *)
Definition credentialsPresent (d : cc_messages.DockerStagingData) : bool :=
  nonEmpty (cc_messages.DockerUser d)
  && nonEmpty (cc_messages.DockerPassword d)
  && nonEmpty (cc_messages.DockerEmail d).

(** The URL the backend asks the consul agent for. *)
Definition catalogURL (backend : dockerBackend) : string :=
  ConsulCluster (config backend) +:+ "/v1/catalog/service/docker-registry".

(** The address a catalog entry gives: the text of the last of its members
    named [Address], in whatever case its letters are, among those whose
    value is a string; [current] when it has none. *)
Definition isAddressKey (key : string) : bool :=
  String.eqb key "Address" || JSON.equal_fold "Address" key.

Fixpoint addressOf (members : list (string * JSON.value)) (current : string)
  : string :=
  match members with
  | [] => current
  | (key, JSON.Str s) :: members' =>
      if isAddressKey key then addressOf members' s
      else addressOf members' current
  | _ :: members' => addressOf members' current
  end.

(** The registry a catalog entry stands for: [null] and an object without
    an address give a registry of empty address. *)
Definition registryOf (v : JSON.value) (service : consulServiceInfo) : Prop :=
  match v with
  | JSON.Null => Address service = ""
  | JSON.Object members => Address service = addressOf members ""
  | _ => False
  end.

(** The arguments of image-caching mode, written after section 4.4 of the
    specification: the fixed four, then one group for an insecure registry,
    one for a login server and one for credentials, in this order. *)
Definition cachingArguments (insecureRegistry : bool) (host port : string)
    (services : list consulServiceInfo)
    (data : cc_messages.DockerStagingData) : list string :=
  ["-cacheDockerImage";
   "-dockerRegistryHost"; host;
   "-dockerRegistryPort"; port;
   "-dockerRegistryIPs"; strings_Join (map Address services) ","]
  ++ (if insecureRegistry
      then ["-insecureDockerRegistries"; host +:+ ":" +:+ port] else [])
  ++ (if nonEmpty (cc_messages.DockerLoginServer data)
      then ["-dockerLoginServer"; cc_messages.DockerLoginServer data] else [])
  ++ (if credentialsPresent data
      then ["-dockerUser"; cc_messages.DockerUser data;
            "-dockerPassword"; cc_messages.DockerPassword data;
            "-dockerEmail"; cc_messages.DockerEmail data]
      else []).

(** The request with its lifecycle tag replaced. *)
Definition withLifecycle (tag : string)
    (request : cc_messages.StagingRequestFromCC)
  : cc_messages.StagingRequestFromCC :=
  {| cc_messages.AppId := cc_messages.AppId request;
     cc_messages.LogGuid := cc_messages.LogGuid request;
     cc_messages.FileDescriptors := cc_messages.FileDescriptors request;
     cc_messages.MemoryMB := cc_messages.MemoryMB request;
     cc_messages.DiskMB := cc_messages.DiskMB request;
     cc_messages.Environment := cc_messages.Environment request;
     cc_messages.EgressRules := cc_messages.EgressRules request;
     cc_messages.Timeout := cc_messages.Timeout request;
     cc_messages.Lifecycle := tag;
     cc_messages.LifecycleData := cc_messages.LifecycleData request |}.

(** A variable of the environment that does not turn image caching on. *)
Definition otherVariable (x : option models.EnvironmentVariable) : Prop :=
  exists v, x = Some v /\ ~ isCachingVariable v.

(** The two lifecycles a completion callback can be routed to. *)
Inductive lifecycle : Type :=
| BuildpackLifecycle
| DockerLifecycle.

(** Modelled from the spec: the dispatch of the staging outbox, which is
    not among the sources at hand; section 4.6 reads [annotation.lifecycle],
    hands the callback to the matching backend's response builder and
    answers 400 to an unknown lifecycle. *)
Definition dispatch (annotation : cc_messages.StagingTaskAnnotation)
  : option lifecycle :=
  if String.eqb (cc_messages.AnnotationLifecycle annotation) "buildpack"
  then Some BuildpackLifecycle
  else if String.eqb (cc_messages.AnnotationLifecycle annotation) DockerLifecycleName
  then Some DockerLifecycle
  else None.

(** The task definition of a build that returned without error. *)
Definition recipe (r : outcome BuildResult * World) : option models.TaskDefinition :=
  match r with
  | (Returned (td, _, _, None), _) => Some td
  | _ => None
  end.

(** The run action of a docker staging recipe: the second step of the
    serial action under the time limit. *)
Definition runAction (td : models.TaskDefinition) : option models.RunAction :=
  match models.Action td with
  | Some (models.Timeout
            (models.Serial [_; models.EmitProgress (models.Run run) _ _ _]) _) =>
      Some run
  | _ => None
  end.

(** The time limit at the root of a recipe, when the root action is a
    serial action under a time limit. *)
Definition rootTimeout (td : models.TaskDefinition) : option Z :=
  match models.Action td with
  | Some (models.Timeout (models.Serial _) t) => Some t
  | _ => None
  end.

(** ** The configuration of the test suite *)
Module Suite.

#[local] Existing Instance Reference.externals.

Definition sanitizer (msg : string) : cc_messages.StagingError :=
  {| cc_messages.Id := ""; cc_messages.Message := msg +:+ " was totally sanitized" |}.

(** The configuration of [docker_registry_test.go], with the minimums at
    the defaults of the command line. *)
Definition backendConfig (insecureDockerRegistry : bool) : Config :=
  {| TaskDomain := "";
     StagerURL := "";
     FileServerURL := "http://file-server.com";
     CCUploaderURL := "http://cc-uploader.com";
     ConsulCluster := "http://127.0.0.1:8500";
     DockerRegistryAddress := "docker-registry.service.cf.internal:8080";
     InsecureDockerRegistry := insecureDockerRegistry;
     Lifecycles := {[ "docker" := "docker_lifecycle/docker_app_lifecycle.tgz" ]};
     DockerStagingStack := "";
     SkipCertVerify := false;
     Sanitizer := sanitizer;
     MinMemoryMB := 1024;
     MinDiskMB := 3072;
     MinFileDescriptors := 0 |}.

Definition docker (insecureDockerRegistry : bool) : dockerBackend :=
  {| config := backendConfig insecureDockerRegistry |}.

Definition stagingGuid : string := "staging-guid".

Definition cachingVar : models.EnvironmentVariable :=
  {| models.Name := "DIEGO_DOCKER_CACHE"; models.Value := "true" |}.

Definition stagingRequest (appId lifecycleData : string) (timeout : Z)
    (environment : list (option models.EnvironmentVariable))
    (egressRules : list models.SecurityGroupRule)
  : cc_messages.StagingRequestFromCC :=
  {| cc_messages.AppId := appId;
     cc_messages.LogGuid := "";
     cc_messages.FileDescriptors := 512;
     cc_messages.MemoryMB := 512;
     cc_messages.DiskMB := 512;
     cc_messages.Environment := environment;
     cc_messages.EgressRules := egressRules;
     cc_messages.Timeout := timeout;
     cc_messages.Lifecycle := "docker";
     cc_messages.LifecycleData := Some lifecycleData |}.

Definition busybox : string := JSON.object [("docker_image", "busybox")].

Definition busyboxWithCredentials : string :=
  JSON.object
    [("docker_image", "busybox");
     ("docker_login_server", "http://loginServer.com");
     ("docker_user", "user");
     ("docker_password", "password");
     ("docker_email", "email@example.com")].

Definition busyboxWithUserOnly : string :=
  JSON.object [("docker_image", "busybox"); ("docker_user", "user")].

Definition registryPayload : string :=
  "[ " +:+ JSON.object [("Address", "10.244.2.6")]
  +:+ ", " +:+ JSON.object [("Address", "10.244.2.7")] +:+ " ]".

Definition consul (payload : string) : World :=
  {| pending := [Ok {| http.StatusCode := 200; http.Body := Ok payload |}];
     requests := [] |}.

Definition registry : World := consul registryPayload.

Definition emptyRegistry : World := consul "[]".

(** The egress rule of the buildpack suite. *)
Definition webRule : models.SecurityGroupRule :=
  {| models.Protocol := "TCP";
     models.Destinations := ["0.0.0.0/0"];
     models.Ports := [];
     models.PortRange := Some (80, 443) |}.

Definition plainRequest : cc_messages.StagingRequestFromCC :=
  stagingRequest "bunny" busybox 512 [] [].

Definition cachedRequest : cc_messages.StagingRequestFromCC :=
  stagingRequest "bunny" busyboxWithCredentials 512 [Some cachingVar] [].

Definition guardedRequest : cc_messages.StagingRequestFromCC :=
  stagingRequest "bunny" busybox 512 [Some cachingVar] [webRule].

Definition briefRequest : cc_messages.StagingRequestFromCC :=
  stagingRequest "bunny" busybox 5 [] [].

Definition anonymousRequest : cc_messages.StagingRequestFromCC :=
  stagingRequest "" busyboxWithUserOnly 512 [] [].

Definition halfwayRequest : cc_messages.StagingRequestFromCC :=
  stagingRequest "bunny" busyboxWithUserOnly 512 [] [].

Definition userOnly : cc_messages.DockerStagingData :=
  {| cc_messages.DockerImageUrl := "busybox";
     cc_messages.DockerLoginServer := "";
     cc_messages.DockerUser := "user";
     cc_messages.DockerPassword := "";
     cc_messages.DockerEmail := "" |}.

(** A backend with the given lifecycles, as the buildpack suite configures
    them: a bare file name, a full URL, a URL of an unexpected scheme. *)
Definition configured (lifecycles : gmap string string) : dockerBackend :=
  {| config :=
       {| TaskDomain := "config-task-domain";
          StagerURL := "http://the-stager.example.com";
          FileServerURL := "http://file-server.com";
          CCUploaderURL := "http://cc-uploader.com";
          ConsulCluster := "";
          DockerRegistryAddress := "";
          InsecureDockerRegistry := false;
          Lifecycles := lifecycles;
          DockerStagingStack := "";
          SkipCertVerify := false;
          Sanitizer := sanitizer;
          MinMemoryMB := 0;
          MinDiskMB := 0;
          MinFileDescriptors := 0 |} |}.

(** A backend whose file server is given without a scheme. *)
Definition misconfigured : dockerBackend :=
  {| config :=
       {| TaskDomain := "config-task-domain";
          StagerURL := "http://the-stager.example.com";
          FileServerURL := "file-server.com";
          CCUploaderURL := "http://cc-uploader.com";
          ConsulCluster := "";
          DockerRegistryAddress := "";
          InsecureDockerRegistry := false;
          Lifecycles := {[ "docker" := "docker_lifecycle/docker_app_lifecycle.tgz" ]};
          DockerStagingStack := "";
          SkipCertVerify := false;
          Sanitizer := sanitizer;
          MinMemoryMB := 0;
          MinDiskMB := 0;
          MinFileDescriptors := 0 |} |}.

Definition fullURL : url.URL :=
  {| url.Scheme := "http"; url.Opaque := ""; url.Host := "the-full-compiler-url";
     url.Path := ""; url.RawQuery := ""; url.Fragment := "" |}.

Definition badURL : url.URL :=
  {| url.Scheme := "ftp"; url.Opaque := ""; url.Host := "the-bad-compiler-url";
     url.Path := ""; url.RawQuery := ""; url.Fragment := "" |}.

Definition bareName : url.URL :=
  {| url.Scheme := ""; url.Opaque := ""; url.Host := "";
     url.Path := "docker_lifecycle/docker_app_lifecycle.tgz";
     url.RawQuery := ""; url.Fragment := "" |}.

Definition staticURL : url.URL :=
  {| url.Scheme := "http"; url.Opaque := ""; url.Host := "file-server.com";
     url.Path := "/v1/static/docker_lifecycle/docker_app_lifecycle.tgz";
     url.RawQuery := ""; url.Fragment := "" |}.

Definition taskOf (r : outcome BuildResult * World) : models.TaskDefinition :=
  default models.empty (recipe r).

Definition plain : models.TaskDefinition :=
  Eval vm_compute in
    taskOf (BuildRecipe (docker false) stagingGuid plainRequest registry).

Definition cached : models.TaskDefinition :=
  Eval vm_compute in
    taskOf (BuildRecipe (docker true) stagingGuid cachedRequest registry).

Definition guarded : models.TaskDefinition :=
  Eval vm_compute in
    taskOf (BuildRecipe (docker false) stagingGuid guardedRequest registry).

Definition brief : models.TaskDefinition :=
  Eval vm_compute in
    taskOf (BuildRecipe (docker false) stagingGuid briefRequest registry).

(** A request whose environment names the caching variable, but not with
    the value that turns caching on. *)
Definition quietRequest : cc_messages.StagingRequestFromCC :=
  stagingRequest "bunny" busybox 512
    [Some {| models.Name := "DIEGO_DOCKER_CACHE"; models.Value := "false" |};
     Some {| models.Name := "VCAP_SERVICES"; models.Value := "bar" |}]
    [webRule].

Definition quiet : models.TaskDefinition :=
  Eval vm_compute in
    taskOf (BuildRecipe (docker false) stagingGuid quietRequest registry).

Definition cachingRequest : cc_messages.StagingRequestFromCC :=
  stagingRequest "bunny" busybox 512 [Some cachingVar] [].

Definition unregistered : outcome BuildResult * World :=
  Eval vm_compute in
    BuildRecipe (docker true) stagingGuid cachingRequest emptyRegistry.

(** The registry world once its one response is used up. *)
Definition queried : World :=
  {| pending := []; requests := [catalogURL (docker true)] |}.

End Suite.

(** * Properties *)

(** ** Arithmetic of the conversions *)

Lemma int32_small (z : Z) : - 2 ^ 31 <= z < 2 ^ 31 -> int32 z = z.
Proof.
  unfold int32. change (2 ^ 31) with 2147483648. change (2 ^ 32) with 4294967296.
  intros Hz. rewrite Z.mod_small; lia.
Qed.

Lemma int64_small (z : Z) : - 2 ^ 63 <= z < 2 ^ 63 -> int64 z = z.
Proof.
  unfold int64. change (2 ^ 63) with 9223372036854775808.
  change (2 ^ 64) with 18446744073709551616.
  intros Hz. rewrite Z.mod_small; lia.
Qed.

Lemma uint64_small (z : Z) : 0 <= z < 2 ^ 64 -> uint64 z = z.
Proof. intros Hz. unfold uint64. apply Z.mod_small; lia. Qed.

Lemma duration_mul_seconds (n : Z) :
  0 <= n <= 9223372036 -> duration_mul n Second = n * Second.
Proof.
  intros Hn. unfold duration_mul, Second.
  assert (Hpow : 2 ^ 63 = 9223372036854775808) by reflexivity.
  rewrite (int64_small n) by lia. apply int64_small. lia.
Qed.

(** ** Strings *)

Lemma len_zero (s : string) : (len s =? 0)%Z = String.eqb s "".
Proof. destruct s; reflexivity. Qed.

Lemma len_pos (s : string) : (0 <? len s)%Z = nonEmpty s.
Proof. destruct s; reflexivity. Qed.

Lemma len_nonneg (s : string) : 0 <= len s.
Proof. unfold len. lia. Qed.

Lemma len_sum_pos (a b c : string) :
  (0 <? len a + len b + len c)%Z = nonEmpty a || nonEmpty b || nonEmpty c.
Proof.
  rewrite <- !len_pos.
  pose proof (len_nonneg a). pose proof (len_nonneg b). pose proof (len_nonneg c).
  destruct (Z.ltb_spec 0 (len a)), (Z.ltb_spec 0 (len b)), (Z.ltb_spec 0 (len c));
    simpl; lia.
Qed.

(** ** Documents that are an empty array *)

Lemma skip_space_app (a s : string) :
  JSON.skip_space a = "" -> JSON.skip_space (a +:+ s) = JSON.skip_space s.
Proof.
  induction a as [|c a IH]; simpl; intros Ha; [reflexivity|].
  destruct (JSON.is_space c); [now apply IH | discriminate].
Qed.

(** An opening and a closing bracket, with white space at will before,
    between and after them, parse as the empty array. *)
Lemma parse_empty_array (a b c : string) :
  JSON.skip_space a = "" -> JSON.skip_space b = "" -> JSON.skip_space c = "" ->
  JSON.parse (a +:+ "[" +:+ b +:+ "]" +:+ c) = Some (JSON.Array []).
Proof.
  intros Ha Hb Hc. unfold JSON.parse.
  replace (2 * String.length (a +:+ "[" +:+ b +:+ "]" +:+ c) + 4)%nat
    with (S (2 * String.length (a +:+ "[" +:+ b +:+ "]" +:+ c) + 3)) by lia.
  cbn [JSON.parse_value]. rewrite (skip_space_app a _ Ha).
  change (JSON.skip_space ("[" +:+ b +:+ "]" +:+ c))
    with (String "["%char (b +:+ "]" +:+ c)).
  cbv iota beta. change (0 <? JSON.maxNestingDepth)%N with true.
  cbv iota. rewrite (skip_space_app b _ Hb).
  change (JSON.skip_space ("]" +:+ c)) with (String "]"%char c).
  cbv iota beta. now rewrite Hc.
Qed.

Lemma Unmarshal_services_empty_array (a b c : string) :
  JSON.skip_space a = "" -> JSON.skip_space b = "" -> JSON.skip_space c = "" ->
  Unmarshal_services (a +:+ "[" +:+ b +:+ "]" +:+ c) = Ok [].
Proof.
  intros Ha Hb Hc. unfold Unmarshal_services.
  now rewrite (parse_empty_array a b c Ha Hb Hc).
Qed.

(** ** The loops *)

Lemma addDockerRegistryRules_app (egressRules : list models.SecurityGroupRule)
    (registries : list consulServiceInfo) :
  addDockerRegistryRules egressRules registries
  = egressRules ++ map registryRule registries.
Proof.
  revert egressRules.
  induction registries as [|registry rest IH]; intros egressRules; simpl.
  - now rewrite app_nil_r.
  - rewrite IH, <- app_assoc. reflexivity.
Qed.

Lemma buildDockerRegistryAddresses_from_app (acc : list string)
    (services : list consulServiceInfo) :
  buildDockerRegistryAddresses_from acc services = acc ++ map Address services.
Proof.
  revert acc. induction services as [|service rest IH]; intros acc; simpl.
  - now rewrite app_nil_r.
  - rewrite IH, <- app_assoc. reflexivity.
Qed.

Lemma buildDockerRegistryAddresses_map (services : list consulServiceInfo) :
  buildDockerRegistryAddresses services = map Address services.
Proof. apply buildDockerRegistryAddresses_from_app. Qed.

Lemma isCachingVariable_eqb (v : models.EnvironmentVariable) :
  String.eqb (models.Name v) "DIEGO_DOCKER_CACHE"
  && String.eqb (models.Value v) "true" = true
  <-> isCachingVariable v.
Proof.
  unfold isCachingVariable.
  rewrite andb_true_iff, !String.eqb_eq. reflexivity.
Qed.

Lemma cacheDockerImage_true (environment : list (option models.EnvironmentVariable)) :
  cacheDockerImage environment = Returned true ->
  exists v, In (Some v) environment /\ isCachingVariable v.
Proof.
  induction environment as [|[v|] rest IH]; simpl; intros Hscan; try discriminate.
  destruct (String.eqb (models.Name v) "DIEGO_DOCKER_CACHE"
            && String.eqb (models.Value v) "true") eqn:Hv.
  - exists v. split; [now left | now apply isCachingVariable_eqb].
  - destruct (IH Hscan) as (v' & Hin & Hv'). exists v'. split; [now right | exact Hv'].
Qed.

Lemma cacheDockerImage_false (environment : list (option models.EnvironmentVariable)) :
  cacheDockerImage environment = Returned false ->
  forall v, In (Some v) environment -> ~ isCachingVariable v.
Proof.
  induction environment as [|[v|] rest IH]; simpl; intros Hscan v' Hin;
    try discriminate; [contradiction|].
  destruct (String.eqb (models.Name v) "DIEGO_DOCKER_CACHE"
            && String.eqb (models.Value v) "true") eqn:Hv; [discriminate|].
  destruct Hin as [Heq | Hin].
  - injection Heq as <-. rewrite <- isCachingVariable_eqb, Hv. discriminate.
  - now apply IH.
Qed.

Lemma cacheDockerImage_requested (request : cc_messages.StagingRequestFromCC) (b : bool) :
  cacheDockerImage (cc_messages.Environment request) = Returned b ->
  (b = true <-> cachingRequested request).
Proof.
  intros Hscan. destruct b; split; intros Hb; try reflexivity.
  - now apply cacheDockerImage_true.
  - discriminate.
  - destruct Hb as (v & Hin & Hv).
    now destruct (cacheDockerImage_false _ Hscan v Hin).
Qed.

(** ** Service discovery *)

Section Discovery.

Context {lib : Externals}.

(** One call makes one request and uses up one response. *)
Lemma cacheDockerImage_found
    (environment : list (option models.EnvironmentVariable)) :
  Forall (fun x => x <> None) environment ->
  (exists v, In (Some v) environment /\ isCachingVariable v) ->
  cacheDockerImage environment = Returned true.
Proof.
  induction 1 as [|[v|] rest Hsome _ IH]; intros (u & Hin & Hu);
    [destruct Hin | | contradiction].
  simpl.
  destruct (String.eqb (models.Name v) "DIEGO_DOCKER_CACHE"
            && String.eqb (models.Value v) "true") eqn:Heq; [reflexivity|].
  apply IH. exists u. split; [|exact Hu].
  destruct Hin as [[= ->] | Hin]; [|exact Hin].
  apply isCachingVariable_eqb in Hu. congruence.
Qed.

Lemma getDockerRegistryServices_world (consulCluster : string) (w w' : World)
    (r : result (list consulServiceInfo)) :
  getDockerRegistryServices consulCluster w = (r, w') ->
  requests w' = requests w ++ [consulCluster +:+ "/v1/catalog/service/docker-registry"]
  /\ pending w' = tl (pending w).
Proof.
  unfold getDockerRegistryServices, http_Get. intros Hget.
  destruct (pending w) as [|[response|err] rest]; simpl in *;
    repeat case_match; simplify_eq; simpl; auto.
Qed.

Lemma getDockerRegistryServices_ok (consulCluster : string) (w w' : World)
    (services : list consulServiceInfo) :
  getDockerRegistryServices consulCluster w = (Ok services, w') ->
  services <> []
  /\ exists response body rest,
       pending w = Ok response :: rest
       /\ http.Body response = Ok body
       /\ Unmarshal_services body = Ok services.
Proof.
  unfold getDockerRegistryServices, http_Get. intros Hget.
  destruct (pending w) as [|[response|err] rest]; simpl in *;
    repeat case_match; simplify_eq.
  split.
  - intros ->. discriminate.
  - eauto 6.
Qed.

End Discovery.

(** ** The recipe builder *)

Section Recipe.

Context {lib : Externals}.

Lemma validateRequest_cases (backend : dockerBackend)
    (request : cc_messages.StagingRequestFromCC)
    (data : cc_messages.DockerStagingData) :
  validateRequest backend request data
  = if String.eqb (cc_messages.AppId request) "" then Some ErrMissingAppId
    else if String.eqb (cc_messages.DockerImageUrl data) ""
    then Some ErrMissingDockerImageUrl
    else if partialCredentials data then Some ErrMissingDockerCredentials
    else None.
Proof.
  unfold validateRequest, partialCredentials.
  rewrite !len_zero, len_sum_pos. unfold nonEmpty.
  destruct (String.eqb (cc_messages.AppId request) ""); [reflexivity|].
  destruct (String.eqb (cc_messages.DockerImageUrl data) ""); [reflexivity|].
  destruct (String.eqb (cc_messages.DockerUser data) ""),
    (String.eqb (cc_messages.DockerPassword data) ""),
    (String.eqb (cc_messages.DockerEmail data) ""); reflexivity.
Qed.

Lemma validateRequest_passed (backend : dockerBackend)
    (request : cc_messages.StagingRequestFromCC)
    (data : cc_messages.DockerStagingData) :
  validateRequest backend request data = None ->
  cc_messages.AppId request <> ""
  /\ cc_messages.DockerImageUrl data <> ""
  /\ partialCredentials data = false.
Proof.
  rewrite validateRequest_cases.
  destruct (String.eqb_spec (cc_messages.AppId request) ""); [discriminate|].
  destruct (String.eqb_spec (cc_messages.DockerImageUrl data) ""); [discriminate|].
  destruct (partialCredentials data); [discriminate|]. auto.
Qed.

(** Once some credential is missing none is given, so the test of the user
    name alone decides whether credentials are present. *)
Lemma credentialsPresent_user (data : cc_messages.DockerStagingData) :
  partialCredentials data = false ->
  nonEmpty (cc_messages.DockerUser data) = credentialsPresent data.
Proof.
  unfold partialCredentials, credentialsPresent.
  destruct (nonEmpty (cc_messages.DockerUser data)),
    (nonEmpty (cc_messages.DockerPassword data)),
    (nonEmpty (cc_messages.DockerEmail data)); simpl; congruence.
Qed.

Lemma addDockerCachingArguments_validated (args : list string)
    (insecureRegistry : bool) (host port : string)
    (services : list consulServiceInfo)
    (data : cc_messages.DockerStagingData) :
  partialCredentials data = false ->
  addDockerCachingArguments args
    (strings_Join (buildDockerRegistryAddresses services) ",")
    insecureRegistry host port data
  = Ok (args ++ cachingArguments insecureRegistry host port services data).
Proof.
  intros Hcred. unfold addDockerCachingArguments, cachingArguments.
  rewrite !len_pos, buildDockerRegistryAddresses_map.
  rewrite (credentialsPresent_user data Hcred). f_equal.
  destruct insecureRegistry, (nonEmpty (cc_messages.DockerLoginServer data)),
    (credentialsPresent data); rewrite <- ?app_assoc; reflexivity.
Qed.

(** What a build that returns without error has gone through. *)
Lemma BuildRecipe_accepted (backend : dockerBackend) (stagingGuid : string)
    (request : cc_messages.StagingRequestFromCC) (w w' : World)
    (td : models.TaskDefinition) (guid domain : string) :
  BuildRecipe backend stagingGuid request w
  = (Returned (td, guid, domain, None), w') ->
  exists raw data compilerURL cache,
    cc_messages.LifecycleData request = Some raw
    /\ Unmarshal_DockerStagingData raw = Ok data
    /\ validateRequest backend request data = None
    /\ compilerDownloadURL backend = Ok compilerURL
    /\ cacheDockerImage (cc_messages.Environment request) = Returned cache
    /\ guid = stagingGuid
    /\ domain = TaskDomain (config backend)
    /\ if cache then
         exists host port services,
           net_SplitHostPort (DockerRegistryAddress (config backend))
           = Ok (host, port)
           /\ getDockerRegistryServices (ConsulCluster (config backend)) w
              = (Ok services, w')
           /\ td = taskDefinition backend stagingGuid request
                     (cc_messages.EgressRules request
                      ++ cc_messages.EgressRules request
                      ++ map registryRule services)
                     compilerURL
                     (baseArguments data
                      ++ cachingArguments (InsecureDockerRegistry (config backend))
                           host port services data)
                     "root"
       else
         w' = w
         /\ td = taskDefinition backend stagingGuid request
                   (cc_messages.EgressRules request) compilerURL
                   (baseArguments data) "vcap".
Proof.
  unfold BuildRecipe, failure. intros Hbuild.
  destruct (cc_messages.LifecycleData request) as [raw|]; [|discriminate].
  destruct (Unmarshal_DockerStagingData raw) as [data|] eqn:Hdata; [|discriminate].
  destruct (validateRequest backend request data) eqn:Hvalid; [discriminate|].
  destruct (compilerDownloadURL backend) as [compilerURL|] eqn:Hurl; [|discriminate].
  destruct (cacheDockerImage (cc_messages.Environment request)) as [cache|] eqn:Hcache;
    [|discriminate].
  exists raw, data, compilerURL, cache.
  destruct (validateRequest_passed _ _ _ Hvalid) as (_ & _ & Hcred).
  destruct cache.
  - destruct (net_SplitHostPort _) as [[host port]|] eqn:Hsplit; [|discriminate].
    destruct (getDockerRegistryServices _ w) as [[services|] w1] eqn:Hget;
      [|discriminate].
    rewrite (addDockerCachingArguments_validated _ _ _ _ _ _ Hcred) in Hbuild.
    rewrite addDockerRegistryRules_app in Hbuild.
    injection Hbuild as <- <- <- <-.
    do 7 (split; [first [reflexivity | assumption]|]). exists host, port, services. auto.
  - injection Hbuild as <- <- <- <-. do 7 (split; [first [reflexivity | assumption]|]). auto.
Qed.

End Recipe.

(** ** Resources and privileges of the recipe *)

(** C1, as stated, fails: with the minimums at the command line's defaults
    (1024 MB of memory, 3072 MB of disk) the test suite's request for
    512 MB is accepted and its recipe keeps 512 MB of memory and of disk. *)
Lemma BuildRecipe_below_minimum :
  BuildRecipe (lib := Reference.externals) (Suite.docker false)
    Suite.stagingGuid Suite.plainRequest Suite.registry
  = (Returned (Suite.plain, Suite.stagingGuid, "", None), Suite.registry)
  /\ cc_messages.MemoryMB Suite.plainRequest
     < MinMemoryMB (config (Suite.docker false))
  /\ models.MemoryMb Suite.plain <> MinMemoryMB (config (Suite.docker false))
  /\ ~ models.MemoryMb Suite.plain >= MinMemoryMB (config (Suite.docker false))
  /\ ~ models.DiskMb Suite.plain >= MinDiskMB (config (Suite.docker false)).
Proof.
  split; [vm_compute; reflexivity|].
  cbn. repeat split; lia.
Qed.

(** C1, amended: the recipe of an accepted docker staging request carries
    the request's own memory_mb and disk_mb (as int32) and its run action
    the request's own file_descriptors (as uint64); the configured
    minimums play no part. *)
Theorem BuildRecipe_resources {lib : Externals} (backend : dockerBackend)
    (stagingGuid : string) (request : cc_messages.StagingRequestFromCC)
    (w w' : World) (td : models.TaskDefinition) (guid domain : string) :
  BuildRecipe backend stagingGuid request w
  = (Returned (td, guid, domain, None), w') ->
  models.MemoryMb td = int32 (cc_messages.MemoryMB request)
  /\ models.DiskMb td = int32 (cc_messages.DiskMB request)
  /\ exists run,
       runAction td = Some run
       /\ models.Limits run
          = Some {| models.Nofile :=
                      Some (uint64 (cc_messages.FileDescriptors request)) |}.
Proof.
  intros Hbuild.
  destruct (BuildRecipe_accepted _ _ _ _ _ _ _ _ Hbuild)
    as (raw & data & compilerURL & cache & _ & _ & _ & _ & _ & _ & _ & Hcase).
  destruct cache.
  - destruct Hcase as (host & port & services & _ & _ & ->).
    repeat split. eexists. split; reflexivity.
  - destruct Hcase as (_ & ->).
    repeat split. eexists. split; reflexivity.
Qed.

Lemma BuildRecipe_resources_witness :
  BuildRecipe (lib := Reference.externals) (Suite.docker false)
    Suite.stagingGuid Suite.plainRequest Suite.registry
  = (Returned (Suite.plain, Suite.stagingGuid, "", None), Suite.registry)
  /\ models.MemoryMb Suite.plain = int32 512
  /\ models.DiskMb Suite.plain = int32 512
  /\ exists run,
       runAction Suite.plain = Some run
       /\ models.Limits run = Some {| models.Nofile := Some (uint64 512) |}.
Proof.
  assert (Hbuild :
    BuildRecipe (lib := Reference.externals) (Suite.docker false)
      Suite.stagingGuid Suite.plainRequest Suite.registry
    = (Returned (Suite.plain, Suite.stagingGuid, "", None), Suite.registry))
    by (vm_compute; reflexivity).
  split; [exact Hbuild|].
  exact (BuildRecipe_resources _ _ _ _ _ _ _ _ Hbuild).
Defined.

(** C10: every recipe the docker backend builds is privileged, with or
    without image caching. *)
Theorem BuildRecipe_privileged {lib : Externals} (backend : dockerBackend)
    (stagingGuid : string) (request : cc_messages.StagingRequestFromCC)
    (w w' : World) (td : models.TaskDefinition) (guid domain : string) :
  BuildRecipe backend stagingGuid request w
  = (Returned (td, guid, domain, None), w') ->
  models.Privileged td = true.
Proof.
  intros Hbuild.
  destruct (BuildRecipe_accepted _ _ _ _ _ _ _ _ Hbuild)
    as (raw & data & compilerURL & cache & _ & _ & _ & _ & _ & _ & _ & Hcase).
  destruct cache.
  - destruct Hcase as (host & port & services & _ & _ & ->). reflexivity.
  - destruct Hcase as (_ & ->). reflexivity.
Qed.

Lemma BuildRecipe_privileged_witness :
  BuildRecipe (lib := Reference.externals) (Suite.docker true)
    Suite.stagingGuid Suite.cachedRequest Suite.registry
  = (Returned (Suite.cached, Suite.stagingGuid, "", None), Suite.queried)
  /\ models.Privileged Suite.cached = true.
Proof.
  assert (Hbuild :
    BuildRecipe (lib := Reference.externals) (Suite.docker true)
      Suite.stagingGuid Suite.cachedRequest Suite.registry
    = (Returned (Suite.cached, Suite.stagingGuid, "", None), Suite.queried))
    by (vm_compute; reflexivity).
  split; [exact Hbuild|].
  exact (BuildRecipe_privileged _ _ _ _ _ _ _ _ Hbuild).
Defined.

(** For sizes that fit an int32 the recipe has exactly the request's. *)
Lemma BuildRecipe_memory_in_range {lib : Externals} (backend : dockerBackend)
    (stagingGuid : string) (request : cc_messages.StagingRequestFromCC)
    (w w' : World) (td : models.TaskDefinition) (guid domain : string) :
  BuildRecipe backend stagingGuid request w
  = (Returned (td, guid, domain, None), w') ->
  - 2 ^ 31 <= cc_messages.MemoryMB request < 2 ^ 31 ->
  models.MemoryMb td = cc_messages.MemoryMB request.
Proof.
  intros Hbuild Hrange. rewrite <- (int32_small _ Hrange).
  destruct (BuildRecipe_accepted _ _ _ _ _ _ _ _ Hbuild)
    as (raw & data & compilerURL & cache & _ & _ & _ & _ & _ & _ & _ & Hcase).
  destruct cache.
  - destruct Hcase as (host & port & services & _ & _ & ->). reflexivity.
  - destruct Hcase as (_ & ->). reflexivity.
Qed.

(** ** The time limit *)

(** C2, as stated, fails: a request with a timeout of 5 seconds is accepted
    and its recipe is limited to 5 seconds, which is not the maximum of
    5 seconds and 15 minutes. *)
Lemma BuildRecipe_timeout_not_max :
  BuildRecipe (lib := Reference.externals) (Suite.docker false)
    Suite.stagingGuid Suite.briefRequest Suite.registry
  = (Returned (Suite.brief, Suite.stagingGuid, "", None), Suite.registry)
  /\ cc_messages.Timeout Suite.briefRequest = 5
  /\ rootTimeout Suite.brief = Some (5 * Second)
  /\ 5 * Second <> Z.max (5 * Second) (15 * Minute).
Proof.
  split; [vm_compute; reflexivity|].
  repeat split. vm_compute. discriminate.
Qed.

(** C2, amended: the root action of an accepted request's recipe is
    Timeout(Serial(...), t) where t is request.timeout seconds when
    request.timeout is positive and 15 minutes otherwise, not the maximum
    of the two; the timeout is taken up to 9223372036 seconds, the most
    that the int64 count of nanoseconds holds. *)
Theorem BuildRecipe_timeout {lib : Externals} (backend : dockerBackend)
    (stagingGuid : string) (request : cc_messages.StagingRequestFromCC)
    (w w' : World) (td : models.TaskDefinition) (guid domain : string) :
  BuildRecipe backend stagingGuid request w
  = (Returned (td, guid, domain, None), w') ->
  cc_messages.Timeout request <= 9223372036 ->
  rootTimeout td
  = Some (if (0 <? cc_messages.Timeout request)%Z
          then cc_messages.Timeout request * Second
          else 15 * Minute).
Proof.
  intros Hbuild Hrange.
  assert (Ht : dockerTimeout request
               = if (0 <? cc_messages.Timeout request)%Z
                 then cc_messages.Timeout request * Second
                 else 15 * Minute).
  { unfold dockerTimeout, DefaultStagingTimeout.
    destruct (Z.ltb_spec 0 (cc_messages.Timeout request)); [|reflexivity].
    apply duration_mul_seconds. lia. }
  destruct (BuildRecipe_accepted _ _ _ _ _ _ _ _ Hbuild)
    as (raw & data & compilerURL & cache & _ & _ & _ & _ & _ & _ & _ & Hcase).
  destruct cache.
  - destruct Hcase as (host & port & services & _ & _ & ->).
    unfold rootTimeout. simpl. now rewrite Ht.
  - destruct Hcase as (_ & ->). unfold rootTimeout. simpl. now rewrite Ht.
Qed.

Lemma BuildRecipe_timeout_witness :
  BuildRecipe (lib := Reference.externals) (Suite.docker false)
    Suite.stagingGuid Suite.briefRequest Suite.registry
  = (Returned (Suite.brief, Suite.stagingGuid, "", None), Suite.registry)
  /\ 5 <= 9223372036
  /\ rootTimeout Suite.brief = Some (if (0 <? 5)%Z then 5 * Second else 15 * Minute).
Proof.
  assert (Hbuild :
    BuildRecipe (lib := Reference.externals) (Suite.docker false)
      Suite.stagingGuid Suite.briefRequest Suite.registry
    = (Returned (Suite.brief, Suite.stagingGuid, "", None), Suite.registry))
    by (vm_compute; reflexivity).
  assert (Hrange : cc_messages.Timeout Suite.briefRequest <= 9223372036)
    by (simpl; lia).
  split; [exact Hbuild|]. split; [lia|].
  exact (BuildRecipe_timeout _ _ _ _ _ _ _ _ Hbuild Hrange).
Defined.

(** ** The annotation *)

Lemma BuildRecipe_annotation {lib : Externals} (backend : dockerBackend)
    (stagingGuid : string) (request : cc_messages.StagingRequestFromCC)
    (w w' : World) (td : models.TaskDefinition) (guid domain : string) :
  BuildRecipe backend stagingGuid request w
  = (Returned (td, guid, domain, None), w') ->
  models.Annotation td
  = cc_messages.Marshal {| cc_messages.AnnotationLifecycle := DockerLifecycleName |}.
Proof.
  intros Hbuild.
  destruct (BuildRecipe_accepted _ _ _ _ _ _ _ _ Hbuild)
    as (raw & data & compilerURL & cache & _ & _ & _ & _ & _ & _ & _ & Hcase).
  destruct cache.
  - destruct Hcase as (host & port & services & _ & _ & ->). reflexivity.
  - destruct Hcase as (_ & ->). reflexivity.
Qed.

(** C3: the recipe of an accepted request is annotated with the JSON text
    {"lifecycle":"docker"}; that text decodes without error to the
    annotation of the docker lifecycle, so that the response builder gets
    past the annotation of any callback that carries it and goes on to
    build the response. *)
Theorem annotation_round_trip {lib : Externals} (backend : dockerBackend)
    (stagingGuid : string) (request : cc_messages.StagingRequestFromCC)
    (w w' : World) (td : models.TaskDefinition) (guid domain : string) :
  BuildRecipe backend stagingGuid request w
  = (Returned (td, guid, domain, None), w') ->
  models.Annotation td
  = "{" +:+ JSON.dq +:+ "lifecycle" +:+ JSON.dq +:+ ":"
    +:+ JSON.dq +:+ "docker" +:+ JSON.dq +:+ "}"
  /\ cc_messages.Unmarshal (models.Annotation td)
     = Ok {| cc_messages.AnnotationLifecycle := DockerLifecycleName |}
  /\ forall (receiver : dockerBackend) (taskGuid failureReason result : string)
            (failed : bool),
       let taskResponse :=
         {| models.TaskGuid := taskGuid;
            models.CallbackAnnotation := models.Annotation td;
            models.Failed := failed;
            models.FailureReason := failureReason;
            models.Result := result |} in
       BuildStagingResponse receiver taskResponse
       = buildResponse receiver taskResponse.
Proof.
  intros Hbuild. rewrite (BuildRecipe_annotation _ _ _ _ _ _ _ _ Hbuild).
  assert (Hdecode :
    cc_messages.Unmarshal
      (cc_messages.Marshal
         {| cc_messages.AnnotationLifecycle := DockerLifecycleName |})
    = Ok {| cc_messages.AnnotationLifecycle := DockerLifecycleName |})
    by (vm_compute; reflexivity).
  split; [reflexivity|]. split; [exact Hdecode|].
  intros receiver taskGuid failureReason result failed taskResponse.
  unfold BuildStagingResponse. subst taskResponse.
  cbn [models.CallbackAnnotation]. now rewrite Hdecode.
Qed.

Lemma annotation_round_trip_witness :
  BuildRecipe (lib := Reference.externals) (Suite.docker false)
    Suite.stagingGuid Suite.plainRequest Suite.registry
  = (Returned (Suite.plain, Suite.stagingGuid, "", None), Suite.registry)
  /\ cc_messages.Unmarshal (models.Annotation Suite.plain)
     = Ok {| cc_messages.AnnotationLifecycle := "docker" |}
  /\ BuildStagingResponse (lib := Reference.externals) (Suite.docker false)
       {| models.TaskGuid := Suite.stagingGuid;
          models.CallbackAnnotation := models.Annotation Suite.plain;
          models.Failed := true;
          models.FailureReason := "some-failure-reason";
          models.Result := "" |}
     = Ok {| cc_messages.Error :=
               Some {| cc_messages.Id := "";
                       cc_messages.Message :=
                         "some-failure-reason was totally sanitized" |};
             cc_messages.ExecutionMetadata := "";
             cc_messages.DetectedStartCommand := ∅;
             cc_messages.ResponseLifecycleData := None |}.
Proof.
  assert (Hbuild :
    BuildRecipe (lib := Reference.externals) (Suite.docker false)
      Suite.stagingGuid Suite.plainRequest Suite.registry
    = (Returned (Suite.plain, Suite.stagingGuid, "", None), Suite.registry))
    by (vm_compute; reflexivity).
  split; [exact Hbuild|].
  destruct (annotation_round_trip _ _ _ _ _ _ _ _ Hbuild) as (_ & Hdecode & Hpast).
  split; [exact Hdecode|].
  rewrite (Hpast (Suite.docker false) Suite.stagingGuid "some-failure-reason" "" true).
  reflexivity.
Defined.

(** Under the dispatch of the outbox, the annotation of a docker recipe
    leads back to the docker backend. *)
Lemma dispatch_recipe_annotation {lib : Externals} (backend : dockerBackend)
    (stagingGuid : string) (request : cc_messages.StagingRequestFromCC)
    (w w' : World) (td : models.TaskDefinition) (guid domain : string) :
  BuildRecipe backend stagingGuid request w
  = (Returned (td, guid, domain, None), w') ->
  exists annotation,
    cc_messages.Unmarshal (models.Annotation td) = Ok annotation
    /\ dispatch annotation = Some DockerLifecycle.
Proof.
  intros Hbuild. rewrite (BuildRecipe_annotation _ _ _ _ _ _ _ _ Hbuild).
  eexists. split; [vm_compute; reflexivity | reflexivity].
Qed.

(** ** Validation of the credentials *)

Lemma partialCredentials_false (data : cc_messages.DockerStagingData) :
  partialCredentials data = false
  <-> (cc_messages.DockerUser data = ""
       /\ cc_messages.DockerPassword data = ""
       /\ cc_messages.DockerEmail data = "")
      \/ (cc_messages.DockerUser data <> ""
          /\ cc_messages.DockerPassword data <> ""
          /\ cc_messages.DockerEmail data <> "").
Proof.
  unfold partialCredentials, nonEmpty.
  destruct (String.eqb_spec (cc_messages.DockerUser data) ""),
    (String.eqb_spec (cc_messages.DockerPassword data) ""),
    (String.eqb_spec (cc_messages.DockerEmail data) ""); simpl;
    intuition congruence.
Qed.

(** C4, as stated, fails: a request that gives a user name without
    password or email, and no app id, is turned down for the missing app
    id, the first of the validations, not for its credentials. *)
Lemma BuildRecipe_app_id_first :
  Unmarshal_DockerStagingData (Externals := Reference.externals)
    Suite.busyboxWithUserOnly = Ok Suite.userOnly
  /\ partialCredentials Suite.userOnly = true
  /\ BuildRecipe (lib := Reference.externals) (Suite.docker false)
       Suite.stagingGuid Suite.anonymousRequest Suite.registry
     = (Returned (failure ErrMissingAppId), Suite.registry)
  /\ failure ErrMissingAppId <> failure ErrMissingDockerCredentials.
Proof.
  split; [vm_compute; reflexivity|].
  split; [reflexivity|].
  split; [vm_compute; reflexivity|].
  unfold failure. intros Heq. discriminate Heq.
Qed.

(** C4, amended: for a request with an app id and a docker image URL, the
    build returns the MissingDockerCredentials error, and no recipe, when
    some but not all of docker_user, docker_password and docker_email are
    non-empty; when all three or none of them are, the request passes the
    validation. *)
Theorem BuildRecipe_credentials {lib : Externals} (backend : dockerBackend)
    (stagingGuid : string) (request : cc_messages.StagingRequestFromCC)
    (w : World) (raw : string) (data : cc_messages.DockerStagingData) :
  cc_messages.LifecycleData request = Some raw ->
  Unmarshal_DockerStagingData raw = Ok data ->
  cc_messages.AppId request <> "" ->
  cc_messages.DockerImageUrl data <> "" ->
  if partialCredentials data then
    BuildRecipe backend stagingGuid request w
    = (Returned (models.empty, "", "", Some ErrMissingDockerCredentials), w)
    /\ recipe (BuildRecipe backend stagingGuid request w) = None
  else validateRequest backend request data = None.
Proof.
  intros Hraw Hdata Happ Himage.
  assert (Hvalid :
    validateRequest backend request data
    = if partialCredentials data then Some ErrMissingDockerCredentials else None).
  { rewrite validateRequest_cases.
    destruct (String.eqb_spec (cc_messages.AppId request) ""); [contradiction|].
    destruct (String.eqb_spec (cc_messages.DockerImageUrl data) "");
      [contradiction|reflexivity]. }
  destruct (partialCredentials data); [|exact Hvalid].
  unfold BuildRecipe. rewrite Hraw, Hdata, Hvalid. split; reflexivity.
Qed.

Lemma BuildRecipe_credentials_witness :
  BuildRecipe (lib := Reference.externals) (Suite.docker false)
    Suite.stagingGuid Suite.halfwayRequest Suite.registry
  = (Returned (models.empty, "", "", Some ErrMissingDockerCredentials),
     Suite.registry)
  /\ recipe (BuildRecipe (lib := Reference.externals) (Suite.docker false)
               Suite.stagingGuid Suite.halfwayRequest Suite.registry) = None.
Proof.
  assert (Hdata :
    Unmarshal_DockerStagingData (Externals := Reference.externals)
      Suite.busyboxWithUserOnly = Ok Suite.userOnly)
    by (vm_compute; reflexivity).
  assert (Happ : cc_messages.AppId Suite.halfwayRequest <> "")
    by (simpl; discriminate).
  assert (Himage : cc_messages.DockerImageUrl Suite.userOnly <> "")
    by (simpl; discriminate).
  exact (BuildRecipe_credentials (lib := Reference.externals) (Suite.docker false)
           Suite.stagingGuid Suite.halfwayRequest Suite.registry
           Suite.busyboxWithUserOnly Suite.userOnly eq_refl Hdata Happ Himage).
Defined.

(** ** Where the builder is downloaded from *)

(** C5, as stated, fails: with a file server configured without a scheme
    the text file_server_url + "/v1/static/" + value of a scheme-less
    lifecycle is no request URI, and the resolution returns an error
    instead of that URL. *)
Lemma compilerDownloadURL_unparsable_join :
  Lifecycles (config Suite.misconfigured) !! "docker"
  = Some "docker_lifecycle/docker_app_lifecycle.tgz"
  /\ Reference.Parse "docker_lifecycle/docker_app_lifecycle.tgz"
     = Ok Suite.bareName
  /\ url.Scheme Suite.bareName = ""
  /\ Reference.ParseRequestURI
       ("file-server.com" +:+ "/v1/static/"
        +:+ "docker_lifecycle/docker_app_lifecycle.tgz")
     = Err (Reference.parseError
              "file-server.com/v1/static/docker_lifecycle/docker_app_lifecycle.tgz"
              (LibraryError "net/url" "invalid URI for request"))
  /\ compilerDownloadURL (lib := Reference.externals) Suite.misconfigured
     = Err (ErrorString
              ("failed to parse compiler download URL: parse " +:+ JSON.dq
               +:+ "file-server.com/v1/static/docker_lifecycle/docker_app_lifecycle.tgz"
               +:+ JSON.dq +:+ ": invalid URI for request")).
Proof.
  split; [vm_compute; reflexivity|].
  split; [vm_compute; reflexivity|].
  split; [reflexivity|].
  split; vm_compute; reflexivity.
Qed.

(** C5, amended: a configured docker lifecycle that parses as a URL of
    scheme http or https is returned as parsed; one without a scheme is
    resolved against the file server, as the URL of
    file_server_url + "/v1/static/" + value when that text parses as a
    request URI, and is an error, "failed to parse compiler download URL",
    when it does not; one of any other scheme is an error; and without a
    "docker" entry among the lifecycles the error is NoCompilerDefined. *)
Theorem compilerDownloadURL_resolution {lib : Externals} (backend : dockerBackend) :
  (forall (value : string) (parsed : url.URL),
      Lifecycles (config backend) !! "docker" = Some value ->
      value <> "" ->
      url_Parse value = Ok parsed ->
      url.Scheme parsed = "http" \/ url.Scheme parsed = "https" ->
      compilerDownloadURL backend = Ok parsed)
  /\ (forall (value : string) (parsed resolved : url.URL),
         Lifecycles (config backend) !! "docker" = Some value ->
         value <> "" ->
         url_Parse value = Ok parsed ->
         url.Scheme parsed = "" ->
         url_ParseRequestURI
           (FileServerURL (config backend) +:+ "/v1/static/" +:+ value)
         = Ok resolved ->
         compilerDownloadURL backend = Ok resolved)
  /\ (forall (value : string) (parsed : url.URL),
         Lifecycles (config backend) !! "docker" = Some value ->
         value <> "" ->
         url_Parse value = Ok parsed ->
         url.Scheme parsed <> "http" ->
         url.Scheme parsed <> "https" ->
         url.Scheme parsed <> "" ->
         compilerDownloadURL backend
         = Err (ErrorString ("unknown scheme: '" +:+ url.Scheme parsed +:+ "'")))
  /\ (Lifecycles (config backend) !! "docker" = None ->
      compilerDownloadURL backend = Err ErrNoCompilerDefined)
  /\ (forall (value : string) (parsed : url.URL) (cause : error),
         Lifecycles (config backend) !! "docker" = Some value ->
         value <> "" ->
         url_Parse value = Ok parsed ->
         url.Scheme parsed = "" ->
         url_ParseRequestURI
           (FileServerURL (config backend) +:+ "/v1/static/" +:+ value)
         = Err cause ->
         compilerDownloadURL backend
         = Err (ErrorString ("failed to parse compiler download URL: "
                             +:+ error_text cause))).
Proof.
  unfold compilerDownloadURL. split; [|split; [|split; [|split]]].
  - intros value parsed -> Hvalue Hparse Hscheme. simpl.
    destruct (String.eqb_spec value ""); [contradiction|].
    rewrite Hparse. destruct Hscheme as [-> | ->]; reflexivity.
  - intros value parsed resolved -> Hvalue Hparse Hscheme Hresolved. simpl.
    destruct (String.eqb_spec value ""); [contradiction|].
    rewrite Hparse, Hscheme.
    change (urljoiner_Join (FileServerURL (config backend))
              ["/v1/static/"; value])
      with (FileServerURL (config backend) +:+ "/v1/static/" +:+ value).
    now rewrite Hresolved.
  - intros value parsed -> Hvalue Hparse Hhttp Hhttps Hnone. simpl.
    destruct (String.eqb_spec value ""); [contradiction|].
    rewrite Hparse.
    destruct (String.eqb_spec (url.Scheme parsed) "http"); [contradiction|].
    destruct (String.eqb_spec (url.Scheme parsed) "https"); [contradiction|].
    destruct (String.eqb_spec (url.Scheme parsed) ""); [contradiction|].
    reflexivity.
  - intros ->. reflexivity.
  - intros value parsed cause -> Hvalue Hparse Hscheme Hcause. simpl.
    destruct (String.eqb_spec value ""); [contradiction|].
    rewrite Hparse, Hscheme.
    change (urljoiner_Join (FileServerURL (config backend))
              ["/v1/static/"; value])
      with (FileServerURL (config backend) +:+ "/v1/static/" +:+ value).
    now rewrite Hcause.
Qed.

Lemma compilerDownloadURL_resolution_witness :
  compilerDownloadURL (lib := Reference.externals)
    (Suite.configured {[ "docker" := "http://the-full-compiler-url" ]})
  = Ok Suite.fullURL
  /\ compilerDownloadURL (lib := Reference.externals)
       (Suite.configured
          {[ "docker" := "docker_lifecycle/docker_app_lifecycle.tgz" ]})
     = Ok Suite.staticURL
  /\ compilerDownloadURL (lib := Reference.externals)
       (Suite.configured {[ "docker" := "ftp://the-bad-compiler-url" ]})
     = Err (ErrorString "unknown scheme: 'ftp'")
  /\ compilerDownloadURL (lib := Reference.externals) (Suite.configured ∅)
     = Err ErrNoCompilerDefined
  /\ compilerDownloadURL (lib := Reference.externals) Suite.misconfigured
     = Err (ErrorString
              ("failed to parse compiler download URL: "
               +:+ error_text
                     (Reference.parseError
                        "file-server.com/v1/static/docker_lifecycle/docker_app_lifecycle.tgz"
                        (LibraryError "net/url" "invalid URI for request")))).
Proof.
  split; [|split; [|split; [|split]]].
  - apply (proj1 (compilerDownloadURL_resolution (lib := Reference.externals)
                    (Suite.configured {[ "docker" := "http://the-full-compiler-url" ]}))
             "http://the-full-compiler-url" Suite.fullURL).
    + vm_compute; reflexivity.
    + discriminate.
    + vm_compute; reflexivity.
    + left; reflexivity.
  - apply (proj1 (proj2 (compilerDownloadURL_resolution (lib := Reference.externals)
                    (Suite.configured
                       {[ "docker" := "docker_lifecycle/docker_app_lifecycle.tgz" ]})))
             "docker_lifecycle/docker_app_lifecycle.tgz" Suite.bareName Suite.staticURL).
    + vm_compute; reflexivity.
    + discriminate.
    + vm_compute; reflexivity.
    + reflexivity.
    + vm_compute; reflexivity.
  - apply (proj1 (proj2 (proj2 (compilerDownloadURL_resolution
                    (lib := Reference.externals)
                    (Suite.configured {[ "docker" := "ftp://the-bad-compiler-url" ]}))))
             "ftp://the-bad-compiler-url" Suite.badURL).
    + vm_compute; reflexivity.
    + discriminate.
    + vm_compute; reflexivity.
    + simpl; discriminate.
    + simpl; discriminate.
    + simpl; discriminate.
  - apply (proj1 (proj2 (proj2 (proj2 (compilerDownloadURL_resolution
                    (lib := Reference.externals) (Suite.configured ∅)))))).
    vm_compute; reflexivity.
  - apply (proj2 (proj2 (proj2 (proj2 (compilerDownloadURL_resolution
                    (lib := Reference.externals) Suite.misconfigured))))
             "docker_lifecycle/docker_app_lifecycle.tgz" Suite.bareName
             (Reference.parseError
                "file-server.com/v1/static/docker_lifecycle/docker_app_lifecycle.tgz"
                (LibraryError "net/url" "invalid URI for request"))).
    + vm_compute; reflexivity.
    + discriminate.
    + vm_compute; reflexivity.
    + reflexivity.
    + vm_compute; reflexivity.
Defined.

(** ** Builds with and without image caching *)

(** A build leaves the world alone unless it asks for image caching and
    gets as far as the discovery of the registries, whose outcome is then
    the outcome of the build. *)
Lemma BuildRecipe_world {lib : Externals} (backend : dockerBackend)
    (stagingGuid : string) (request : cc_messages.StagingRequestFromCC)
    (w w' : World) (r : outcome BuildResult) :
  BuildRecipe backend stagingGuid request w = (r, w') ->
  w' = w
  \/ (cacheDockerImage (cc_messages.Environment request) = Returned true
      /\ exists discovered,
           getDockerRegistryServices (ConsulCluster (config backend)) w
           = (discovered, w')
           /\ match discovered with
              | Err err => r = Returned (failure err)
              | Ok _ =>
                  exists td,
                    r = Returned (td, stagingGuid, TaskDomain (config backend), None)
              end).
Proof.
  unfold BuildRecipe. intros Hbuild.
  destruct (cc_messages.LifecycleData request) as [raw|];
    [|injection Hbuild as <- <-; now left].
  destruct (Unmarshal_DockerStagingData raw) as [data|];
    [|injection Hbuild as <- <-; now left].
  destruct (validateRequest backend request data);
    [injection Hbuild as <- <-; now left|].
  destruct (compilerDownloadURL backend) as [compilerURL|];
    [|injection Hbuild as <- <-; now left].
  destruct (cacheDockerImage (cc_messages.Environment request)) as [[|]|];
    [|injection Hbuild as <- <-; now left|injection Hbuild as <- <-; now left].
  destruct (net_SplitHostPort _) as [[host port]|];
    [|injection Hbuild as <- <-; now left].
  right. split; [reflexivity|].
  destruct (getDockerRegistryServices _ w) as [[services|err] w1].
  - unfold addDockerCachingArguments in Hbuild.
    injection Hbuild as <- <-. eexists. split; [reflexivity|].
    eexists. reflexivity.
  - injection Hbuild as <- <-. eexists. split; reflexivity.
Qed.

(** C6: without a variable DIEGO_DOCKER_CACHE of value "true" in the
    request, a build makes no request to consul, and the recipe it
    returns runs the builder as "vcap" with exactly the arguments
    -outputMetadataJSONFilename /tmp/docker-result/result.json
    -dockerRef <docker_image_url>, under the egress rules of the
    request. *)
Theorem BuildRecipe_without_caching {lib : Externals} (backend : dockerBackend)
    (stagingGuid : string) (request : cc_messages.StagingRequestFromCC)
    (w w' : World) (r : outcome BuildResult) :
  ~ cachingRequested request ->
  BuildRecipe backend stagingGuid request w = (r, w') ->
  w' = w
  /\ forall (td : models.TaskDefinition) (guid domain : string),
       r = Returned (td, guid, domain, None) ->
       exists raw data run,
         cc_messages.LifecycleData request = Some raw
         /\ Unmarshal_DockerStagingData raw = Ok data
         /\ runAction td = Some run
         /\ models.Args run
            = ["-outputMetadataJSONFilename"; "/tmp/docker-result/result.json";
               "-dockerRef"; cc_messages.DockerImageUrl data]
         /\ models.User run = "vcap"
         /\ models.EgressRules td = cc_messages.EgressRules request.
Proof.
  intros Hplain Hbuild. split.
  - destruct (BuildRecipe_world _ _ _ _ _ _ Hbuild) as [Hsame | (Hcache & _)];
      [exact Hsame|].
    destruct Hplain. now apply cacheDockerImage_true.
  - intros td guid domain ->.
    destruct (BuildRecipe_accepted _ _ _ _ _ _ _ _ Hbuild)
      as (raw & data & compilerURL & cache & Hraw & Hdata & _ & _ & Hcache & _ & _
          & Hcase).
    destruct cache.
    + destruct Hplain. now apply cacheDockerImage_true.
    + destruct Hcase as (_ & ->). exists raw, data. eexists.
      repeat split; try eassumption; reflexivity.
Qed.

Lemma BuildRecipe_without_caching_witness :
  requests Suite.registry = []
  /\ exists raw data run,
       cc_messages.LifecycleData Suite.quietRequest = Some raw
       /\ Unmarshal_DockerStagingData (Externals := Reference.externals) raw
          = Ok data
       /\ runAction Suite.quiet = Some run
       /\ models.Args run
          = ["-outputMetadataJSONFilename"; "/tmp/docker-result/result.json";
             "-dockerRef"; cc_messages.DockerImageUrl data]
       /\ models.User run = "vcap"
       /\ models.EgressRules Suite.quiet = [Suite.webRule].
Proof.
  assert (Hquiet : ~ cachingRequested Suite.quietRequest).
  { intros (v & [Hin | [Hin | []]] & _ & Hvalue);
      injection Hin as <-; discriminate Hvalue. }
  assert (Hbuild :
    BuildRecipe (lib := Reference.externals) (Suite.docker false)
      Suite.stagingGuid Suite.quietRequest Suite.registry
    = (Returned (Suite.quiet, Suite.stagingGuid, "", None), Suite.registry))
    by (vm_compute; reflexivity).
  destruct (BuildRecipe_without_caching _ _ _ _ _ _ Hquiet Hbuild)
    as (Hworld & Hrecipe).
  split; [exact (f_equal requests Hworld)|].
  exact (Hrecipe _ _ _ eq_refl).
Defined.

(** C7: in image-caching mode the accepted request's builder runs as
    "root", and its arguments are the base arguments followed, in this
    order, by -cacheDockerImage, -dockerRegistryHost <host>,
    -dockerRegistryPort <port>, -dockerRegistryIPs <the addresses joined
    by commas>, then -insecureDockerRegistries <host:port> when the
    registry is insecure, then -dockerLoginServer <server> when a login
    server is given, then -dockerUser, -dockerPassword and -dockerEmail
    when credentials are present. *)
Theorem BuildRecipe_caching_arguments {lib : Externals} (backend : dockerBackend)
    (stagingGuid : string) (request : cc_messages.StagingRequestFromCC)
    (w w' : World) (td : models.TaskDefinition) (guid domain : string) :
  cachingRequested request ->
  BuildRecipe backend stagingGuid request w
  = (Returned (td, guid, domain, None), w') ->
  exists raw data host port services run,
    cc_messages.LifecycleData request = Some raw
    /\ Unmarshal_DockerStagingData raw = Ok data
    /\ net_SplitHostPort (DockerRegistryAddress (config backend)) = Ok (host, port)
    /\ getDockerRegistryServices (ConsulCluster (config backend)) w
       = (Ok services, w')
    /\ runAction td = Some run
    /\ models.User run = "root"
    /\ models.Args run
       = ["-outputMetadataJSONFilename"; "/tmp/docker-result/result.json";
          "-dockerRef"; cc_messages.DockerImageUrl data]
         ++ ["-cacheDockerImage";
             "-dockerRegistryHost"; host;
             "-dockerRegistryPort"; port;
             "-dockerRegistryIPs"; strings_Join (map Address services) ","]
         ++ (if InsecureDockerRegistry (config backend)
             then ["-insecureDockerRegistries"; host +:+ ":" +:+ port] else [])
         ++ (if nonEmpty (cc_messages.DockerLoginServer data)
             then ["-dockerLoginServer"; cc_messages.DockerLoginServer data]
             else [])
         ++ (if credentialsPresent data
             then ["-dockerUser"; cc_messages.DockerUser data;
                   "-dockerPassword"; cc_messages.DockerPassword data;
                   "-dockerEmail"; cc_messages.DockerEmail data]
             else []).
Proof.
  intros Hcaching Hbuild.
  destruct (BuildRecipe_accepted _ _ _ _ _ _ _ _ Hbuild)
    as (raw & data & compilerURL & cache & Hraw & Hdata & _ & _ & Hcache & _ & _
        & Hcase).
  destruct cache.
  - destruct Hcase as (host & port & services & Hsplit & Hget & ->).
    exists raw, data, host, port, services. eexists.
    repeat split; try eassumption; reflexivity.
  - destruct Hcaching as (v & Hin & Hv).
    now destruct (cacheDockerImage_false _ Hcache v Hin).
Qed.

Lemma BuildRecipe_caching_arguments_witness :
  exists run,
    runAction Suite.cached = Some run
    /\ models.User run = "root"
    /\ models.Args run
       = ["-outputMetadataJSONFilename"; "/tmp/docker-result/result.json";
          "-dockerRef"; "busybox";
          "-cacheDockerImage";
          "-dockerRegistryHost"; "docker-registry.service.cf.internal";
          "-dockerRegistryPort"; "8080";
          "-dockerRegistryIPs"; "10.244.2.6,10.244.2.7";
          "-insecureDockerRegistries"; "docker-registry.service.cf.internal:8080";
          "-dockerLoginServer"; "http://loginServer.com";
          "-dockerUser"; "user";
          "-dockerPassword"; "password";
          "-dockerEmail"; "email@example.com"].
Proof.
  assert (Hcaching : cachingRequested Suite.cachedRequest).
  { exists Suite.cachingVar. split; [left; reflexivity | split; reflexivity]. }
  assert (Hbuild :
    BuildRecipe (lib := Reference.externals) (Suite.docker true)
      Suite.stagingGuid Suite.cachedRequest Suite.registry
    = (Returned (Suite.cached, Suite.stagingGuid, "", None), Suite.queried))
    by (vm_compute; reflexivity).
  destruct (BuildRecipe_caching_arguments _ _ _ _ _ _ _ _ Hcaching Hbuild)
    as (raw & data & host & port & services & run & _ & _ & _ & _ & Hrun & Huser & _).
  exists run. split; [exact Hrun|]. split; [exact Huser|].
  injection Hrun as <-. reflexivity.
Defined.

(** C8: in image-caching mode the egress rules of an accepted request's
    recipe contain every egress rule of the request and end, in the order
    of discovery, with one rule per registry that consul reported: TCP to
    the registry's address on port 8080. *)
Theorem BuildRecipe_caching_egress {lib : Externals} (backend : dockerBackend)
    (stagingGuid : string) (request : cc_messages.StagingRequestFromCC)
    (w w' : World) (td : models.TaskDefinition) (guid domain : string) :
  cachingRequested request ->
  BuildRecipe backend stagingGuid request w
  = (Returned (td, guid, domain, None), w') ->
  exists services others,
    getDockerRegistryServices (ConsulCluster (config backend)) w
    = (Ok services, w')
    /\ incl (cc_messages.EgressRules request) (models.EgressRules td)
    /\ incl others (cc_messages.EgressRules request)
    /\ models.EgressRules td
       = others
         ++ map (fun registry =>
                   {| models.Protocol := models.TCPProtocol;
                      models.Destinations := [Address registry];
                      models.Ports := [8080];
                      models.PortRange := None |})
                services.
Proof.
  intros Hcaching Hbuild.
  destruct (BuildRecipe_accepted _ _ _ _ _ _ _ _ Hbuild)
    as (raw & data & compilerURL & cache & _ & _ & _ & _ & Hcache & _ & _ & Hcase).
  destruct cache.
  - destruct Hcase as (host & port & services & _ & Hget & ->).
    exists services,
      (cc_messages.EgressRules request ++ cc_messages.EgressRules request).
    split; [exact Hget|]. simpl. split; [|split].
    + apply incl_appl, incl_refl.
    + apply incl_app; apply incl_refl.
    + now rewrite <- app_assoc.
  - destruct Hcaching as (v & Hin & Hv).
    now destruct (cacheDockerImage_false _ Hcache v Hin).
Qed.

Lemma BuildRecipe_caching_egress_witness :
  models.EgressRules Suite.cached
  = [ {| models.Protocol := models.TCPProtocol;
         models.Destinations := ["10.244.2.6"];
         models.Ports := [8080];
         models.PortRange := None |};
      {| models.Protocol := models.TCPProtocol;
         models.Destinations := ["10.244.2.7"];
         models.Ports := [8080];
         models.PortRange := None |} ]
  /\ incl (cc_messages.EgressRules Suite.cachedRequest)
       (models.EgressRules Suite.cached).
Proof.
  assert (Hcaching : cachingRequested Suite.cachedRequest).
  { exists Suite.cachingVar. split; [left; reflexivity | split; reflexivity]. }
  assert (Hbuild :
    BuildRecipe (lib := Reference.externals) (Suite.docker true)
      Suite.stagingGuid Suite.cachedRequest Suite.registry
    = (Returned (Suite.cached, Suite.stagingGuid, "", None), Suite.queried))
    by (vm_compute; reflexivity).
  destruct (BuildRecipe_caching_egress _ _ _ _ _ _ _ _ Hcaching Hbuild)
    as (services & others & _ & Hincl & _ & _).
  split; [reflexivity | exact Hincl].
Defined.

(** X19: the rules of the request come twice in the recipe of image-caching
    mode: the registry rules are first appended to a copy of the request's
    rules, and the whole is then appended to the request's rules. *)
Lemma BuildRecipe_caching_egress_exact {lib : Externals} (backend : dockerBackend)
    (stagingGuid : string) (request : cc_messages.StagingRequestFromCC)
    (w w' : World) (td : models.TaskDefinition) (guid domain : string) :
  cachingRequested request ->
  BuildRecipe backend stagingGuid request w
  = (Returned (td, guid, domain, None), w') ->
  exists services,
    getDockerRegistryServices (ConsulCluster (config backend)) w
    = (Ok services, w')
    /\ models.EgressRules td
       = cc_messages.EgressRules request
         ++ cc_messages.EgressRules request
         ++ map registryRule services.
Proof.
  intros Hcaching Hbuild.
  destruct (BuildRecipe_accepted _ _ _ _ _ _ _ _ Hbuild)
    as (raw & data & compilerURL & cache & _ & _ & _ & _ & Hcache & _ & _ & Hcase).
  destruct cache.
  - destruct Hcase as (host & port & services & _ & Hget & ->).
    exists services. split; [exact Hget | reflexivity].
  - destruct Hcaching as (v & Hin & Hv).
    now destruct (cacheDockerImage_false _ Hcache v Hin).
Qed.

Example guarded_egress :
  models.EgressRules Suite.guarded
  = [Suite.webRule; Suite.webRule;
     registryRule {| Address := "10.244.2.6" |};
     registryRule {| Address := "10.244.2.7" |}].
Proof. reflexivity. Qed.

(** ** Failures of the discovery *)

(** C9: a build with image caching, of a request that passes the
    validation on a backend whose builder and registry address resolve,
    asks consul once, using up one response.  When that response is an
    empty JSON array the build returns the MissingDockerRegistry error and
    no recipe; a failure of the transport, of the reading of the body or
    of its decoding is returned as it is. *)
Theorem BuildRecipe_discovery_failure {lib : Externals} (backend : dockerBackend)
    (stagingGuid : string) (request : cc_messages.StagingRequestFromCC)
    (w : World) (raw : string) (data : cc_messages.DockerStagingData)
    (compilerURL : url.URL) (host port : string) :
  cc_messages.LifecycleData request = Some raw ->
  Unmarshal_DockerStagingData raw = Ok data ->
  validateRequest backend request data = None ->
  compilerDownloadURL backend = Ok compilerURL ->
  Forall (fun x => x <> None) (cc_messages.Environment request) ->
  cachingRequested request ->
  net_SplitHostPort (DockerRegistryAddress (config backend)) = Ok (host, port) ->
  let asked :=
    {| pending := tl (pending w);
       requests := requests w ++ [catalogURL backend] |} in
  (forall (response : http.Response) (body : string),
      head (pending w) = Some (Ok response) ->
      http.Body response = Ok body ->
      JSON.parse body = Some (JSON.Array []) ->
      BuildRecipe backend stagingGuid request w
      = (Returned (models.empty, "", "", Some ErrMissingDockerRegistry), asked)
      /\ recipe (BuildRecipe backend stagingGuid request w) = None)
  /\ (forall err : error,
         head (pending w) = Some (Err err) ->
         BuildRecipe backend stagingGuid request w
         = (Returned (models.empty, "", "", Some err), asked))
  /\ (head (pending w) = None ->
      BuildRecipe backend stagingGuid request w
      = (Returned (models.empty, "", "", Some ConnectionRefused), asked))
  /\ (forall (response : http.Response) (err : error),
         head (pending w) = Some (Ok response) ->
         http.Body response = Err err ->
         BuildRecipe backend stagingGuid request w
         = (Returned (models.empty, "", "", Some err), asked))
  /\ (forall (response : http.Response) (body : string) (err : error),
         head (pending w) = Some (Ok response) ->
         http.Body response = Ok body ->
         Unmarshal_services body = Err err ->
         BuildRecipe backend stagingGuid request w
         = (Returned (models.empty, "", "", Some err), asked)).
Proof.
  intros Hraw Hdata Hvalid Hurl Henv Hcaching Hsplit asked. subst asked.
  unfold BuildRecipe. rewrite Hraw, Hdata, Hvalid, Hurl.
  rewrite (cacheDockerImage_found _ Henv Hcaching), Hsplit.
  unfold getDockerRegistryServices, http_Get.
  destruct (pending w) as [|[response|err0] rest]; simpl.
  - split; [discriminate|]. split; [discriminate|].
    split; [reflexivity|]. split; discriminate.
  - split; [|split; [discriminate|split; [discriminate|split]]].
    + intros response' body [= <-] Hbody Hempty.
      rewrite Hbody. unfold Unmarshal_services. rewrite Hempty. simpl.
      split; reflexivity.
    + intros response' err [= <-] Hbody. now rewrite Hbody.
    + intros response' body err [= <-] Hbody Hdecode.
      now rewrite Hbody, Hdecode.
  - split; [discriminate|]. split; [|split; [discriminate|split; discriminate]].
    intros err [= <-]. reflexivity.
Qed.

Lemma BuildRecipe_discovery_failure_witness :
  BuildRecipe (lib := Reference.externals) (Suite.docker true)
    Suite.stagingGuid Suite.cachingRequest Suite.emptyRegistry
  = (Returned (models.empty, "", "", Some ErrMissingDockerRegistry),
     {| pending := []; requests := [catalogURL (Suite.docker true)] |})
  /\ BuildRecipe (lib := Reference.externals) (Suite.docker false)
       Suite.stagingGuid Suite.cachingRequest Suite.emptyRegistry
     = (Returned (models.empty, "", "", Some ErrMissingDockerRegistry),
        {| pending := []; requests := [catalogURL (Suite.docker false)] |})
  /\ BuildRecipe (lib := Reference.externals) (Suite.docker true)
       Suite.stagingGuid Suite.cachingRequest
       {| pending := []; requests := [] |}
     = (Returned (models.empty, "", "", Some ConnectionRefused),
        {| pending := []; requests := [catalogURL (Suite.docker true)] |})
  /\ BuildRecipe (lib := Reference.externals) (Suite.docker true)
       Suite.stagingGuid Suite.cachingRequest (Suite.consul "{")
     = (Returned (models.empty, "", "", Some JSON.SyntaxError),
        {| pending := []; requests := [catalogURL (Suite.docker true)] |}).
Proof.
  assert (Hall : forall (insecure : bool) (w : World),
    let asked :=
      {| pending := tl (pending w);
         requests := requests w ++ [catalogURL (Suite.docker insecure)] |} in
    (forall (response : http.Response) (body : string),
        head (pending w) = Some (Ok response) ->
        http.Body response = Ok body ->
        JSON.parse body = Some (JSON.Array []) ->
        BuildRecipe (lib := Reference.externals) (Suite.docker insecure)
          Suite.stagingGuid Suite.cachingRequest w
        = (Returned (models.empty, "", "", Some ErrMissingDockerRegistry), asked)
        /\ recipe (BuildRecipe (lib := Reference.externals)
                     (Suite.docker insecure) Suite.stagingGuid
                     Suite.cachingRequest w) = None)
    /\ (forall err : error,
           head (pending w) = Some (Err err) ->
           BuildRecipe (lib := Reference.externals) (Suite.docker insecure)
             Suite.stagingGuid Suite.cachingRequest w
           = (Returned (models.empty, "", "", Some err), asked))
    /\ (head (pending w) = None ->
        BuildRecipe (lib := Reference.externals) (Suite.docker insecure)
          Suite.stagingGuid Suite.cachingRequest w
        = (Returned (models.empty, "", "", Some ConnectionRefused), asked))
    /\ (forall (response : http.Response) (err : error),
           head (pending w) = Some (Ok response) ->
           http.Body response = Err err ->
           BuildRecipe (lib := Reference.externals) (Suite.docker insecure)
             Suite.stagingGuid Suite.cachingRequest w
           = (Returned (models.empty, "", "", Some err), asked))
    /\ (forall (response : http.Response) (body : string) (err : error),
           head (pending w) = Some (Ok response) ->
           http.Body response = Ok body ->
           Unmarshal_services body = Err err ->
           BuildRecipe (lib := Reference.externals) (Suite.docker insecure)
             Suite.stagingGuid Suite.cachingRequest w
           = (Returned (models.empty, "", "", Some err), asked))).
  { intros insecure w.
    apply (BuildRecipe_discovery_failure (lib := Reference.externals)
             (Suite.docker insecure) Suite.stagingGuid Suite.cachingRequest w
             Suite.busybox
             {| cc_messages.DockerImageUrl := "busybox";
                cc_messages.DockerLoginServer := "";
                cc_messages.DockerUser := "";
                cc_messages.DockerPassword := "";
                cc_messages.DockerEmail := "" |}
             Suite.staticURL "docker-registry.service.cf.internal" "8080").
    - reflexivity.
    - vm_compute; reflexivity.
    - reflexivity.
    - destruct insecure; vm_compute; reflexivity.
    - simpl. constructor; [discriminate | constructor].
    - exists Suite.cachingVar. split; [left; reflexivity | split; reflexivity].
    - destruct insecure; vm_compute; reflexivity. }
  split; [|split; [|split]].
  - apply (proj1 (proj1 (Hall true Suite.emptyRegistry)
                    {| http.StatusCode := 200; http.Body := Ok "[]" |} "[]"
                    eq_refl eq_refl eq_refl)).
  - apply (proj1 (proj1 (Hall false Suite.emptyRegistry)
                    {| http.StatusCode := 200; http.Body := Ok "[]" |} "[]"
                    eq_refl eq_refl eq_refl)).
  - apply (proj1 (proj2 (proj2 (Hall true {| pending := []; requests := [] |})))).
    reflexivity.
  - apply (proj2 (proj2 (proj2 (proj2 (Hall true (Suite.consul "{")))))
             {| http.StatusCode := 200; http.Body := Ok "{" |} "{").
    + reflexivity.
    + reflexivity.
    + vm_compute; reflexivity.
Defined.

(** * Further properties of the backend *)

(** ** Validation *)

(** X1: a request passes the validation exactly when it has an app id and
    a docker image URL and gives either all or none of user, password and
    email. *)
Theorem validateRequest_accepts_iff (backend : dockerBackend)
    (request : cc_messages.StagingRequestFromCC)
    (data : cc_messages.DockerStagingData) :
  validateRequest backend request data = None
  <-> cc_messages.AppId request <> ""
      /\ cc_messages.DockerImageUrl data <> ""
      /\ ((cc_messages.DockerUser data = ""
           /\ cc_messages.DockerPassword data = ""
           /\ cc_messages.DockerEmail data = "")
          \/ (cc_messages.DockerUser data <> ""
              /\ cc_messages.DockerPassword data <> ""
              /\ cc_messages.DockerEmail data <> "")).
Proof.
  rewrite validateRequest_cases, <- partialCredentials_false.
  destruct (String.eqb_spec (cc_messages.AppId request) "");
    [split; [discriminate | intros (Happ & _); contradiction]|].
  destruct (String.eqb_spec (cc_messages.DockerImageUrl data) "");
    [split; [discriminate | intros (_ & Himage & _); contradiction]|].
  destruct (partialCredentials data).
  - split; [discriminate | intros (_ & _ & Hcred); discriminate].
  - split; auto.
Qed.

(** X2: the validation reports the first check that fails: a missing app
    id before a missing image URL, a missing image URL before incomplete
    credentials. *)
Theorem validateRequest_first_failure (backend : dockerBackend)
    (request : cc_messages.StagingRequestFromCC)
    (data : cc_messages.DockerStagingData) (err : error) :
  validateRequest backend request data = Some err
  <-> (cc_messages.AppId request = "" /\ err = ErrMissingAppId)
      \/ (cc_messages.AppId request <> ""
          /\ cc_messages.DockerImageUrl data = ""
          /\ err = ErrMissingDockerImageUrl)
      \/ (cc_messages.AppId request <> ""
          /\ cc_messages.DockerImageUrl data <> ""
          /\ partialCredentials data = true
          /\ err = ErrMissingDockerCredentials).
Proof.
  rewrite validateRequest_cases.
  destruct (String.eqb_spec (cc_messages.AppId request) "") as [Happ|Happ].
  { split.
    - intros [= <-]. left. auto.
    - intros [(_ & ->) | [(Hno & _) | (Hno & _)]];
        [reflexivity | contradiction | contradiction]. }
  destruct (String.eqb_spec (cc_messages.DockerImageUrl data) "")
    as [Himage|Himage].
  { split.
    - intros [= <-]. right. left. auto.
    - intros [(Hno & _) | [(_ & _ & ->) | (_ & Hno & _)]];
        [contradiction | reflexivity | contradiction]. }
  destruct (partialCredentials data).
  - split.
    + intros [= <-]. right. right. auto.
    + intros [(Hno & _) | [(_ & Hno & _) | (_ & _ & _ & ->)]];
        [contradiction | contradiction | reflexivity].
  - split; [discriminate|].
    intros [(Hno & _) | [(_ & Hno & _) | (_ & _ & Hno & _)]];
      [contradiction | contradiction | discriminate].
Qed.

(** ** Outcomes of a build *)

(** X3: a build that returns an error returns nothing else: the task
    definition is the empty one and the guid and the domain are empty. *)
Theorem BuildRecipe_error_shape {lib : Externals} (backend : dockerBackend)
    (stagingGuid : string) (request : cc_messages.StagingRequestFromCC)
    (w w' : World) (td : models.TaskDefinition) (guid domain : string)
    (err : error) :
  BuildRecipe backend stagingGuid request w
  = (Returned (td, guid, domain, Some err), w') ->
  td = models.empty /\ guid = "" /\ domain = "".
Proof.
  unfold BuildRecipe, failure, addDockerCachingArguments. intros Hbuild.
  repeat case_match; simplify_eq; auto.
Qed.

Lemma BuildRecipe_error_shape_witness :
  BuildRecipe (lib := Reference.externals) (Suite.docker false)
    Suite.stagingGuid Suite.halfwayRequest Suite.registry
  = (Returned (models.empty, "", "", Some ErrMissingDockerCredentials),
     Suite.registry)
  /\ models.empty = models.empty /\ "" = "" /\ "" = "".
Proof.
  assert (Hbuild :
    BuildRecipe (lib := Reference.externals) (Suite.docker false)
      Suite.stagingGuid Suite.halfwayRequest Suite.registry
    = (Returned (models.empty, "", "", Some ErrMissingDockerCredentials),
       Suite.registry))
    by (vm_compute; reflexivity).
  split; [exact Hbuild|].
  exact (BuildRecipe_error_shape _ _ _ _ _ _ _ _ _ Hbuild).
Defined.

(** X4: the action of an accepted request's recipe has exactly two steps
    under its time limit: the download of the builder, from the URL that
    [compilerDownloadURL] resolved, into /tmp/docker_app_lifecycle, and the
    run of /tmp/docker_app_lifecycle/builder with the environment of the
    request passed on as it is. *)
Theorem BuildRecipe_action_tree {lib : Externals} (backend : dockerBackend)
    (stagingGuid : string) (request : cc_messages.StagingRequestFromCC)
    (w w' : World) (td : models.TaskDefinition) (guid domain : string) :
  BuildRecipe backend stagingGuid request w
  = (Returned (td, guid, domain, None), w') ->
  exists compilerURL args limits runAs,
    compilerDownloadURL backend = Ok compilerURL
    /\ models.Action td
       = Some
           (models.Timeout
              (models.Serial
                 [models.EmitProgress
                    (models.Download
                       {| models.Artifact := "";
                          models.From := url_String compilerURL;
                          models.To := "/tmp/docker_app_lifecycle";
                          models.CacheKey := "docker-lifecycle";
                          models.DownloadUser := "vcap" |})
                    "" "" "Failed to set up docker environment";
                  models.EmitProgress
                    (models.Run
                       {| models.Path := "/tmp/docker_app_lifecycle/builder";
                          models.Args := args;
                          models.Env := cc_messages.Environment request;
                          models.Limits := limits;
                          models.User := runAs |})
                    "Staging..." "Staging Complete" "Staging Failed"])
              (dockerTimeout request)).
Proof.
  intros Hbuild.
  destruct (BuildRecipe_accepted _ _ _ _ _ _ _ _ Hbuild)
    as (raw & data & compilerURL & cache & _ & _ & _ & Hurl & _ & _ & _ & Hcase).
  exists compilerURL.
  destruct cache.
  - destruct Hcase as (host & port & services & _ & _ & ->).
    do 3 eexists. split; [exact Hurl | reflexivity].
  - destruct Hcase as (_ & ->).
    do 3 eexists. split; [exact Hurl | reflexivity].
Qed.

Lemma BuildRecipe_action_tree_witness :
  exists compilerURL args limits runAs,
    compilerDownloadURL (lib := Reference.externals) (Suite.docker true)
    = Ok compilerURL
    /\ models.Action Suite.cached
       = Some
           (models.Timeout
              (models.Serial
                 [models.EmitProgress
                    (models.Download
                       {| models.Artifact := "";
                          models.From := Reference.URLString compilerURL;
                          models.To := "/tmp/docker_app_lifecycle";
                          models.CacheKey := "docker-lifecycle";
                          models.DownloadUser := "vcap" |})
                    "" "" "Failed to set up docker environment";
                  models.EmitProgress
                    (models.Run
                       {| models.Path := "/tmp/docker_app_lifecycle/builder";
                          models.Args := args;
                          models.Env := [Some Suite.cachingVar];
                          models.Limits := limits;
                          models.User := runAs |})
                    "Staging..." "Staging Complete" "Staging Failed"])
              (512 * Second)).
Proof.
  assert (Hbuild :
    BuildRecipe (lib := Reference.externals) (Suite.docker true)
      Suite.stagingGuid Suite.cachedRequest Suite.registry
    = (Returned (Suite.cached, Suite.stagingGuid, "", None), Suite.queried))
    by (vm_compute; reflexivity).
  exact (BuildRecipe_action_tree _ _ _ _ _ _ _ _ Hbuild).
Defined.

(** X5: with the recipe of an accepted request the build returns the
    staging guid it was given and the task domain of the configuration;
    the recipe has the preloaded root file system of the docker staging
    stack, the builder's output path as result file and the log guid of
    the request, and leaves CPU weight and metrics guid unset. *)
Theorem BuildRecipe_static_fields {lib : Externals} (backend : dockerBackend)
    (stagingGuid : string) (request : cc_messages.StagingRequestFromCC)
    (w w' : World) (td : models.TaskDefinition) (guid domain : string) :
  BuildRecipe backend stagingGuid request w
  = (Returned (td, guid, domain, None), w') ->
  guid = stagingGuid
  /\ domain = TaskDomain (config backend)
  /\ models.RootFs td = PreloadedRootFS (DockerStagingStack (config backend))
  /\ models.ResultFile td = "/tmp/docker-result/result.json"
  /\ models.LogGuid td = cc_messages.LogGuid request
  /\ models.CpuWeight td = 0
  /\ models.MetricsGuid td = "".
Proof.
  intros Hbuild.
  destruct (BuildRecipe_accepted _ _ _ _ _ _ _ _ Hbuild)
    as (raw & data & compilerURL & cache & _ & _ & _ & _ & _ & -> & -> & Hcase).
  destruct cache.
  - destruct Hcase as (host & port & services & _ & _ & ->).
    repeat split; reflexivity.
  - destruct Hcase as (_ & ->). repeat split; reflexivity.
Qed.

Lemma BuildRecipe_static_fields_witness :
  Suite.stagingGuid = Suite.stagingGuid
  /\ "" = TaskDomain (config (Suite.docker false))
  /\ models.RootFs Suite.plain = "preloaded:"
  /\ models.ResultFile Suite.plain = "/tmp/docker-result/result.json"
  /\ models.LogGuid Suite.plain = cc_messages.LogGuid Suite.plainRequest
  /\ models.CpuWeight Suite.plain = 0
  /\ models.MetricsGuid Suite.plain = "".
Proof.
  assert (Hbuild :
    BuildRecipe (lib := Reference.externals) (Suite.docker false)
      Suite.stagingGuid Suite.plainRequest Suite.registry
    = (Returned (Suite.plain, Suite.stagingGuid, "", None), Suite.registry))
    by (vm_compute; reflexivity).
  exact (BuildRecipe_static_fields _ _ _ _ _ _ _ _ Hbuild).
Defined.

(** ** The scan of the environment *)

Lemma cacheDockerImage_skip
    (before rest : list (option models.EnvironmentVariable)) :
  Forall otherVariable before ->
  cacheDockerImage (before ++ rest) = cacheDockerImage rest.
Proof.
  induction 1 as [|x before (v & -> & Hv) _ IH]; simpl; [reflexivity|].
  destruct (String.eqb (models.Name v) "DIEGO_DOCKER_CACHE"
            && String.eqb (models.Value v) "true") eqn:Heq; [|exact IH].
  destruct Hv. now apply isCachingVariable_eqb.
Qed.

(** X6: the scan stops at the first variable that turns caching on.  After
    variables that do not, such a variable gives caching whatever follows
    it, a nil element panics, and the end of the list gives no caching. *)
Theorem cacheDockerImage_first_match
    (before : list (option models.EnvironmentVariable)) :
  Forall otherVariable before ->
  cacheDockerImage before = Returned false
  /\ (forall (v : models.EnvironmentVariable)
             (after : list (option models.EnvironmentVariable)),
         isCachingVariable v ->
         cacheDockerImage (before ++ Some v :: after) = Returned true)
  /\ (forall after : list (option models.EnvironmentVariable),
         cacheDockerImage (before ++ None :: after)
         = Panicked "invalid memory address or nil pointer dereference").
Proof.
  intros Hbefore. split; [|split].
  - rewrite <- (app_nil_r before) at 1.
    now rewrite (cacheDockerImage_skip before [] Hbefore).
  - intros v after Hv. rewrite (cacheDockerImage_skip before _ Hbefore). simpl.
    apply isCachingVariable_eqb in Hv. now rewrite Hv.
  - intros after. now rewrite (cacheDockerImage_skip before _ Hbefore).
Qed.

Lemma cacheDockerImage_first_match_witness :
  cacheDockerImage
    [Some {| models.Name := "DIEGO_DOCKER_CACHE"; models.Value := "false" |};
     Some Suite.cachingVar; None]
  = Returned true
  /\ cacheDockerImage
       [Some {| models.Name := "DIEGO_DOCKER_CACHE"; models.Value := "false" |};
        None; Some Suite.cachingVar]
     = Panicked "invalid memory address or nil pointer dereference".
Proof.
  assert (Hbefore :
    Forall otherVariable
      [Some {| models.Name := "DIEGO_DOCKER_CACHE"; models.Value := "false" |}]).
  { constructor; [|constructor].
    eexists. split; [reflexivity|]. intros (_ & Hvalue). discriminate Hvalue. }
  destruct (cacheDockerImage_first_match _ Hbefore) as (_ & Hfound & Hnil).
  split.
  - apply (Hfound Suite.cachingVar [None]). split; reflexivity.
  - apply (Hnil [Some Suite.cachingVar]).
Defined.

(** ** When a build returns *)

(** X7: a build panics on a request without lifecycle data, and returns,
    with a recipe or an error, on every request that has lifecycle data
    and no nil element in its environment. *)
Theorem BuildRecipe_panic_free {lib : Externals} (backend : dockerBackend)
    (stagingGuid : string) (request : cc_messages.StagingRequestFromCC)
    (w : World) :
  (cc_messages.LifecycleData request = None ->
   exists msg, BuildRecipe backend stagingGuid request w = (Panicked msg, w))
  /\ (cc_messages.LifecycleData request <> None ->
      Forall (fun x => x <> None) (cc_messages.Environment request) ->
      exists result, fst (BuildRecipe backend stagingGuid request w) = Returned result).
Proof.
  split.
  - intros Hnil. unfold BuildRecipe. rewrite Hnil. eexists. reflexivity.
  - intros Hdata Henv.
    assert (Hscan : exists b,
      cacheDockerImage (cc_messages.Environment request) = Returned b).
    { clear Hdata. induction Henv as [|[v|] rest Hsome _ IH]; simpl.
      - eexists; reflexivity.
      - destruct (_ && _); [eexists; reflexivity | exact IH].
      - contradiction. }
    destruct Hscan as (b & Hscan).
    unfold BuildRecipe, addDockerCachingArguments. rewrite Hscan.
    destruct (cc_messages.LifecycleData request); [|contradiction].
    repeat case_match; simpl; eexists; reflexivity.
Qed.

Lemma BuildRecipe_panic_free_witness :
  (exists msg,
      BuildRecipe (lib := Reference.externals) (Suite.docker false)
        Suite.stagingGuid
        {| cc_messages.AppId := "bunny"; cc_messages.LogGuid := "";
           cc_messages.FileDescriptors := 512; cc_messages.MemoryMB := 512;
           cc_messages.DiskMB := 512; cc_messages.Environment := [];
           cc_messages.EgressRules := []; cc_messages.Timeout := 512;
           cc_messages.Lifecycle := "docker";
           cc_messages.LifecycleData := None |}
        Suite.registry
      = (Panicked msg, Suite.registry))
  /\ exists result,
       fst (BuildRecipe (lib := Reference.externals) (Suite.docker true)
              Suite.stagingGuid Suite.cachedRequest Suite.registry)
       = Returned result.
Proof.
  split.
  - apply (proj1 (BuildRecipe_panic_free (lib := Reference.externals)
                    (Suite.docker false) Suite.stagingGuid _ Suite.registry)).
    reflexivity.
  - apply (proj2 (BuildRecipe_panic_free (lib := Reference.externals)
                    (Suite.docker true) Suite.stagingGuid Suite.cachedRequest
                    Suite.registry)).
    + simpl. discriminate.
    + simpl. constructor; [discriminate | constructor].
Defined.

(** X8: consul is queried only for a request that decoded and passed the
    validation, with the builder's URL resolved and the address of the
    registry split into host and port. *)
Theorem BuildRecipe_queries_last {lib : Externals} (backend : dockerBackend)
    (stagingGuid : string) (request : cc_messages.StagingRequestFromCC)
    (w w' : World) (r : outcome BuildResult) :
  BuildRecipe backend stagingGuid request w = (r, w') ->
  requests w' <> requests w ->
  exists raw data compilerURL host port,
    cc_messages.LifecycleData request = Some raw
    /\ Unmarshal_DockerStagingData raw = Ok data
    /\ validateRequest backend request data = None
    /\ compilerDownloadURL backend = Ok compilerURL
    /\ net_SplitHostPort (DockerRegistryAddress (config backend))
       = Ok (host, port).
Proof.
  unfold BuildRecipe. intros Hbuild Hqueried.
  destruct (cc_messages.LifecycleData request) as [raw|];
    [|injection Hbuild as <- <-; contradiction].
  destruct (Unmarshal_DockerStagingData raw) as [data|] eqn:Hdata;
    [|injection Hbuild as <- <-; contradiction].
  destruct (validateRequest backend request data) eqn:Hvalid;
    [injection Hbuild as <- <-; contradiction|].
  destruct (compilerDownloadURL backend) as [compilerURL|] eqn:Hurl;
    [|injection Hbuild as <- <-; contradiction].
  destruct (cacheDockerImage (cc_messages.Environment request)) as [[|]|];
    [|injection Hbuild as <- <-; contradiction
     |injection Hbuild as <- <-; contradiction].
  destruct (net_SplitHostPort _) as [[host port]|] eqn:Hsplit;
    [|injection Hbuild as <- <-; contradiction].
  exists raw, data, compilerURL, host, port. auto.
Qed.

Lemma BuildRecipe_queries_last_witness :
  exists raw data compilerURL host port,
    cc_messages.LifecycleData Suite.cachingRequest = Some raw
    /\ Unmarshal_DockerStagingData (Externals := Reference.externals) raw
       = Ok data
    /\ validateRequest (Suite.docker true) Suite.cachingRequest data = None
    /\ compilerDownloadURL (lib := Reference.externals) (Suite.docker true)
       = Ok compilerURL
    /\ Reference.SplitHostPort
         (DockerRegistryAddress (config (Suite.docker true)))
       = Ok (host, port).
Proof.
  assert (Hbuild :
    BuildRecipe (lib := Reference.externals) (Suite.docker true)
      Suite.stagingGuid Suite.cachingRequest Suite.emptyRegistry
    = (fst Suite.unregistered, snd Suite.unregistered))
    by (vm_compute; reflexivity).
  assert (Hqueried :
    requests (snd Suite.unregistered) <> requests Suite.emptyRegistry)
    by (simpl; discriminate).
  exact (BuildRecipe_queries_last _ _ _ _ _ _ Hbuild Hqueried).
Defined.

(** X9: the lifecycle tag of the request plays no part in the build: the
    docker backend builds the same recipe, or fails the same way, whatever
    lifecycle the request names. *)
Theorem BuildRecipe_ignores_lifecycle {lib : Externals} (backend : dockerBackend)
    (stagingGuid tag : string) (request : cc_messages.StagingRequestFromCC)
    (w : World) :
  BuildRecipe backend stagingGuid (withLifecycle tag request) w
  = BuildRecipe backend stagingGuid request w.
Proof. reflexivity. Qed.

(** X10: without image caching nothing but the request and the
    configuration decides the build: a request that decodes and passes the
    validation, under a configuration whose builder URL resolves, is given
    a recipe, and the world is left as it was. *)
Theorem BuildRecipe_accepts_plain {lib : Externals} (backend : dockerBackend)
    (stagingGuid : string) (request : cc_messages.StagingRequestFromCC)
    (w : World) (raw : string) (data : cc_messages.DockerStagingData)
    (compilerURL : url.URL) :
  cc_messages.LifecycleData request = Some raw ->
  Unmarshal_DockerStagingData raw = Ok data ->
  validateRequest backend request data = None ->
  compilerDownloadURL backend = Ok compilerURL ->
  Forall otherVariable (cc_messages.Environment request) ->
  exists td,
    BuildRecipe backend stagingGuid request w
    = (Returned (td, stagingGuid, TaskDomain (config backend), None), w).
Proof.
  intros Hraw Hdata Hvalid Hurl Henv.
  unfold BuildRecipe. rewrite Hraw, Hdata, Hvalid, Hurl.
  rewrite <- (app_nil_r (cc_messages.Environment request)).
  rewrite (cacheDockerImage_skip _ [] Henv). simpl.
  eexists. reflexivity.
Qed.

Lemma BuildRecipe_accepts_plain_witness :
  exists td,
    BuildRecipe (lib := Reference.externals) (Suite.docker false)
      Suite.stagingGuid Suite.quietRequest Suite.registry
    = (Returned (td, Suite.stagingGuid, "", None), Suite.registry).
Proof.
  apply (BuildRecipe_accepts_plain (lib := Reference.externals)
           (Suite.docker false) Suite.stagingGuid Suite.quietRequest
           Suite.registry Suite.busybox
           {| cc_messages.DockerImageUrl := "busybox";
              cc_messages.DockerLoginServer := "";
              cc_messages.DockerUser := "";
              cc_messages.DockerPassword := "";
              cc_messages.DockerEmail := "" |}
           Suite.staticURL).
  - reflexivity.
  - vm_compute; reflexivity.
  - reflexivity.
  - vm_compute; reflexivity.
  - simpl. repeat constructor.
    + eexists. split; [reflexivity|]. intros (_ & Hvalue). discriminate Hvalue.
    + eexists. split; [reflexivity|]. intros (Hname & _). discriminate Hname.
Defined.

(** X11: with image caching a request that decodes and passes the
    validation is given a recipe as soon as the builder's URL resolves, the
    address of the registry splits and consul answers with a body that
    decodes to at least one registry; the build then used up that one
    answer. *)
Theorem BuildRecipe_accepts_cached {lib : Externals} (backend : dockerBackend)
    (stagingGuid : string) (request : cc_messages.StagingRequestFromCC)
    (w : World) (raw : string) (data : cc_messages.DockerStagingData)
    (compilerURL : url.URL) (host port : string)
    (response : http.Response) (rest : list (result http.Response))
    (body : string) (services : list consulServiceInfo) :
  cc_messages.LifecycleData request = Some raw ->
  Unmarshal_DockerStagingData raw = Ok data ->
  validateRequest backend request data = None ->
  compilerDownloadURL backend = Ok compilerURL ->
  Forall (fun x => x <> None) (cc_messages.Environment request) ->
  cachingRequested request ->
  net_SplitHostPort (DockerRegistryAddress (config backend)) = Ok (host, port) ->
  pending w = Ok response :: rest ->
  http.Body response = Ok body ->
  Unmarshal_services body = Ok services ->
  services <> [] ->
  exists td,
    BuildRecipe backend stagingGuid request w
    = (Returned (td, stagingGuid, TaskDomain (config backend), None),
       {| pending := rest; requests := requests w ++ [catalogURL backend] |}).
Proof.
  intros Hraw Hdata Hvalid Hurl Henv Hcaching Hsplit Hpending Hbody Hdecode Hsome.
  unfold BuildRecipe. rewrite Hraw, Hdata, Hvalid, Hurl.
  rewrite (cacheDockerImage_found _ Henv Hcaching), Hsplit.
  unfold getDockerRegistryServices, http_Get.
  rewrite Hpending, Hbody, Hdecode.
  destruct services as [|service services]; [contradiction|].
  simpl. unfold addDockerCachingArguments. eexists. reflexivity.
Qed.

Lemma BuildRecipe_accepts_cached_witness :
  exists td,
    BuildRecipe (lib := Reference.externals) (Suite.docker true)
      Suite.stagingGuid Suite.cachingRequest Suite.registry
    = (Returned (td, Suite.stagingGuid, "", None), Suite.queried).
Proof.
  apply (BuildRecipe_accepts_cached (lib := Reference.externals)
           (Suite.docker true) Suite.stagingGuid Suite.cachingRequest
           Suite.registry Suite.busybox
           {| cc_messages.DockerImageUrl := "busybox";
              cc_messages.DockerLoginServer := "";
              cc_messages.DockerUser := "";
              cc_messages.DockerPassword := "";
              cc_messages.DockerEmail := "" |}
           Suite.staticURL "docker-registry.service.cf.internal" "8080"
           {| http.StatusCode := 200; http.Body := Ok Suite.registryPayload |}
           [] Suite.registryPayload
           [ {| Address := "10.244.2.6" |}; {| Address := "10.244.2.7" |} ]).
  - reflexivity.
  - vm_compute; reflexivity.
  - reflexivity.
  - vm_compute; reflexivity.
  - simpl. constructor; [discriminate | constructor].
  - exists Suite.cachingVar. split; [left; reflexivity | split; reflexivity].
  - vm_compute; reflexivity.
  - reflexivity.
  - reflexivity.
  - vm_compute; reflexivity.
  - discriminate.
Defined.

(** X12: in image-caching mode a registry address that does not split into
    host and port fails the build with the InvalidDockerRegistryAddress
    error, whatever the splitting reported, and before consul is asked. *)
Theorem BuildRecipe_invalid_registry_address {lib : Externals}
    (backend : dockerBackend) (stagingGuid : string)
    (request : cc_messages.StagingRequestFromCC) (w : World) (raw : string)
    (data : cc_messages.DockerStagingData) (compilerURL : url.URL)
    (err : error) :
  cc_messages.LifecycleData request = Some raw ->
  Unmarshal_DockerStagingData raw = Ok data ->
  validateRequest backend request data = None ->
  compilerDownloadURL backend = Ok compilerURL ->
  Forall (fun x => x <> None) (cc_messages.Environment request) ->
  cachingRequested request ->
  net_SplitHostPort (DockerRegistryAddress (config backend)) = Err err ->
  BuildRecipe backend stagingGuid request w
  = (Returned (models.empty, "", "", Some ErrInvalidDockerRegistryAddress), w).
Proof.
  intros Hraw Hdata Hvalid Hurl Henv Hcaching Hsplit.
  unfold BuildRecipe. rewrite Hraw, Hdata, Hvalid, Hurl.
  now rewrite (cacheDockerImage_found _ Henv Hcaching), Hsplit.
Qed.

Lemma BuildRecipe_invalid_registry_address_witness :
  BuildRecipe (lib := Reference.externals)
    (Suite.configured
       {[ "docker" := "docker_lifecycle/docker_app_lifecycle.tgz" ]})
    Suite.stagingGuid Suite.cachingRequest Suite.registry
  = (Returned (models.empty, "", "", Some ErrInvalidDockerRegistryAddress),
     Suite.registry).
Proof.
  apply (BuildRecipe_invalid_registry_address (lib := Reference.externals)
           (Suite.configured
              {[ "docker" := "docker_lifecycle/docker_app_lifecycle.tgz" ]})
           Suite.stagingGuid Suite.cachingRequest Suite.registry Suite.busybox
           {| cc_messages.DockerImageUrl := "busybox";
              cc_messages.DockerLoginServer := "";
              cc_messages.DockerUser := "";
              cc_messages.DockerPassword := "";
              cc_messages.DockerEmail := "" |}
           Suite.staticURL (LibraryError "net" "missing port in address")).
  - reflexivity.
  - vm_compute; reflexivity.
  - reflexivity.
  - vm_compute; reflexivity.
  - simpl. constructor; [discriminate | constructor].
  - exists Suite.cachingVar. split; [left; reflexivity | split; reflexivity].
  - vm_compute; reflexivity.
Defined.

(** ** Discovery of the registries *)

(** X13: whatever consul answers, one call of the discovery makes exactly
    one request, to the catalog entry of the docker registry under the
    given cluster address, and uses up one answer. *)
Theorem getDockerRegistryServices_single_request
    (consulCluster : string) (w : World) :
  requests (snd (getDockerRegistryServices consulCluster w))
  = requests w ++ [consulCluster +:+ "/v1/catalog/service/docker-registry"]
  /\ pending (snd (getDockerRegistryServices consulCluster w)) = tl (pending w).
Proof.
  destruct (getDockerRegistryServices consulCluster w) as [r w'] eqn:Hget.
  exact (getDockerRegistryServices_world _ _ _ _ Hget).
Qed.

(** X14: a discovery that succeeds never comes back empty-handed: its
    services are those decoded from the body of the answer, and there is
    at least one. *)
Theorem getDockerRegistryServices_success
    (consulCluster : string) (w w' : World)
    (services : list consulServiceInfo) :
  getDockerRegistryServices consulCluster w = (Ok services, w') ->
  services <> []
  /\ exists response body,
       head (pending w) = Some (Ok response)
       /\ http.Body response = Ok body
       /\ Unmarshal_services body = Ok services.
Proof.
  intros Hget.
  destruct (getDockerRegistryServices_ok _ _ _ _ Hget)
    as (Hsome & response & body & rest & Hpending & Hbody & Hdecode).
  split; [exact Hsome|]. exists response, body.
  rewrite Hpending. auto.
Qed.

Lemma getDockerRegistryServices_success_witness :
  [ {| Address := "10.244.2.6" |}; {| Address := "10.244.2.7" |} ] <> []
  /\ exists response body,
       head (pending Suite.registry) = Some (Ok response)
       /\ http.Body response = Ok body
       /\ Unmarshal_services body
          = Ok [ {| Address := "10.244.2.6" |}; {| Address := "10.244.2.7" |} ].
Proof.
  apply (getDockerRegistryServices_success
           "http://127.0.0.1:8500" Suite.registry Suite.queried).
  vm_compute; reflexivity.
Defined.

(** X15: the status of consul's answer is never looked at: a build gets
    the same outcome, and makes the same requests, from two answers that
    differ in their status only. *)
Theorem BuildRecipe_ignores_status {lib : Externals} (backend : dockerBackend)
    (stagingGuid : string) (request : cc_messages.StagingRequestFromCC)
    (status status' : Z) (body : result string)
    (rest : list (result http.Response)) (asked : list string) :
  let answered (code : Z) :=
    BuildRecipe backend stagingGuid request
      {| pending := Ok {| http.StatusCode := code; http.Body := body |} :: rest;
         requests := asked |} in
  fst (answered status) = fst (answered status')
  /\ requests (snd (answered status)) = requests (snd (answered status')).
Proof.
  unfold BuildRecipe, getDockerRegistryServices, http_Get,
    addDockerCachingArguments. simpl.
  repeat case_match; simplify_eq; simpl; auto.
Qed.

(** One service is decoded per element of the array, whether or not the
    element has an address. *)
Lemma decode_services_length (vs : list JSON.value)
    (services : list consulServiceInfo) :
  decode_services vs = Ok services -> length services = length vs.
Proof.
  revert services. induction vs as [|v vs IH]; simpl; intros services Hdecode.
  - injection Hdecode as <-. reflexivity.
  - destruct (JSON.decode_struct ["Address"] v); [|discriminate].
    destruct (decode_services vs) as [l|]; [|discriminate].
    injection Hdecode as <-. simpl. f_equal. now apply IH.
Qed.

Lemma decode_members_address (members : list (string * JSON.value))
    (acc m : gmap string string) :
  JSON.decode_members ["Address"] members acc = Ok m ->
  JSON.field m "Address" = addressOf members (JSON.field acc "Address").
Proof.
  revert acc. induction members as [|[key v] members IH]; intros acc Hdecode.
  - injection Hdecode as <-. reflexivity.
  - cbn [JSON.decode_members] in Hdecode. unfold JSON.match_field in Hdecode.
    cbn [find] in Hdecode. cbn [addressOf]. unfold isAddressKey.
    destruct (String.eqb key "Address");
      [|destruct (JSON.equal_fold "Address" key)];
      cbn [orb]; destruct v; try discriminate Hdecode;
      rewrite (IH _ Hdecode); try reflexivity;
      unfold JSON.field; now rewrite lookup_insert_eq.
Qed.

Lemma decode_services_elements (vs : list JSON.value)
    (services : list consulServiceInfo) :
  decode_services vs = Ok services -> Forall2 registryOf vs services.
Proof.
  revert services. induction vs as [|v vs IH]; simpl; intros services Hdecode.
  - injection Hdecode as <-. constructor.
  - destruct (JSON.decode_struct ["Address"] v) as [m|] eqn:Hstruct;
      [|discriminate].
    destruct (decode_services vs) as [l|]; [|discriminate].
    injection Hdecode as <-. constructor; [|now apply IH].
    destruct v; simpl in Hstruct; try discriminate Hstruct.
    + injection Hstruct as <-. reflexivity.
    + simpl. now rewrite (decode_members_address _ _ _ Hstruct).
Qed.

(** X16: the body of consul's answer gives one registry per element of its
    array, in the order of the array; the address of a registry is the text
    of the last string member named Address of its element, in whatever
    case the letters of the name are, and is empty for an element that is
    null or has no such member. *)
Theorem Unmarshal_services_elements (body : string) (vs : list JSON.value)
    (services : list consulServiceInfo) :
  JSON.parse body = Some (JSON.Array vs) ->
  Unmarshal_services body = Ok services ->
  length services = length vs
  /\ Forall2 registryOf vs services
  /\ (forall (i : nat) (service : consulServiceInfo),
         vs !! i = Some (JSON.Object []) \/ vs !! i = Some JSON.Null ->
         services !! i = Some service ->
         Address service = "")
  /\ (forall (i : nat) (address : string) (service : consulServiceInfo),
         vs !! i = Some (JSON.Object [("Address", JSON.Str address)]) ->
         services !! i = Some service ->
         Address service = address).
Proof.
  unfold Unmarshal_services. intros -> Hdecode.
  pose proof (decode_services_elements _ _ Hdecode) as Hall.
  split; [now apply decode_services_length|].
  split; [exact Hall|]. split.
  - intros i service Hv Hservice.
    destruct Hv as [Hv | Hv];
      exact (Forall2_lookup_lr _ _ _ _ _ _ Hall Hv Hservice).
  - intros i address service Hv Hservice.
    exact (Forall2_lookup_lr _ _ _ _ _ _ Hall Hv Hservice).
Qed.

Lemma Unmarshal_services_elements_witness :
  Unmarshal_services
    ("[" +:+ JSON.object [("Address", "10.244.2.6")] +:+ ",{},"
     +:+ JSON.object [("ServiceName", "docker-registry"); ("address", "10.244.2.7")]
     +:+ ",null]")
  = Ok [ {| Address := "10.244.2.6" |}; {| Address := "" |};
         {| Address := "10.244.2.7" |}; {| Address := "" |} ]
  /\ Forall2 registryOf
       [ JSON.Object [("Address", JSON.Str "10.244.2.6")]; JSON.Object [];
         JSON.Object [("ServiceName", JSON.Str "docker-registry");
                      ("address", JSON.Str "10.244.2.7")];
         JSON.Null ]
       [ {| Address := "10.244.2.6" |}; {| Address := "" |};
         {| Address := "10.244.2.7" |}; {| Address := "" |} ].
Proof.
  assert (Hdecode :
    Unmarshal_services
      ("[" +:+ JSON.object [("Address", "10.244.2.6")] +:+ ",{},"
       +:+ JSON.object [("ServiceName", "docker-registry"); ("address", "10.244.2.7")]
       +:+ ",null]")
    = Ok [ {| Address := "10.244.2.6" |}; {| Address := "" |};
           {| Address := "10.244.2.7" |}; {| Address := "" |} ])
    by (vm_compute; reflexivity).
  split; [exact Hdecode|].
  refine (proj1 (proj2 (Unmarshal_services_elements _ _ _ _ Hdecode))).
  vm_compute; reflexivity.
Defined.

(** ** Egress rules for the registries *)

(** X17: the loop over the registries keeps the given rules in front and
    adds behind them, in order, one rule per registry: TCP to its address
    on port 8080. *)
Theorem addDockerRegistryRules_appends
    (egressRules : list models.SecurityGroupRule)
    (registries : list consulServiceInfo) :
  addDockerRegistryRules egressRules registries
  = egressRules
    ++ map (fun registry =>
              {| models.Protocol := models.TCPProtocol;
                 models.Destinations := [Address registry];
                 models.Ports := [8080];
                 models.PortRange := None |})
         registries
  /\ length (addDockerRegistryRules egressRules registries)
     = (length egressRules + length registries)%nat.
Proof.
  rewrite addDockerRegistryRules_app. split; [reflexivity|].
  now rewrite length_app, length_map.
Qed.

(** X18: the destinations of the rules made for the registries are the
    addresses handed to the builder as its registry IPs, in the same
    order. *)
Theorem registry_rules_match_addresses (services : list consulServiceInfo) :
  concat (map models.Destinations (addDockerRegistryRules [] services))
  = buildDockerRegistryAddresses services.
Proof.
  rewrite addDockerRegistryRules_app, buildDockerRegistryAddresses_map. simpl.
  induction services as [|service rest IH]; simpl; [reflexivity|].
  now rewrite IH.
Qed.

Lemma BuildRecipe_caching_egress_exact_witness :
  exists services,
    getDockerRegistryServices
      (ConsulCluster (config (Suite.docker false))) Suite.registry
    = (Ok services, Suite.queried)
    /\ models.EgressRules Suite.guarded
       = [Suite.webRule] ++ [Suite.webRule] ++ map registryRule services.
Proof.
  assert (Hcaching : cachingRequested Suite.guardedRequest).
  { exists Suite.cachingVar. split; [left; reflexivity | split; reflexivity]. }
  assert (Hbuild :
    BuildRecipe (lib := Reference.externals) (Suite.docker false)
      Suite.stagingGuid Suite.guardedRequest Suite.registry
    = (Returned (Suite.guarded, Suite.stagingGuid, "", None), Suite.queried))
    by (vm_compute; reflexivity).
  exact (BuildRecipe_caching_egress_exact _ _ _ _ _ _ _ _ Hcaching Hbuild).
Defined.

(** ** More on the builder's URL *)

(** X20: a URL that the resolution returns comes from the "docker" entry
    of the lifecycles, which is then not empty: it is either the entry
    itself, parsed, of scheme http or https, or the entry, of no scheme,
    resolved against the file server. *)
Theorem compilerDownloadURL_resolved_from {lib : Externals}
    (backend : dockerBackend) (resolved : url.URL) :
  compilerDownloadURL backend = Ok resolved ->
  exists value parsed,
    Lifecycles (config backend) !! "docker" = Some value
    /\ value <> ""
    /\ url_Parse value = Ok parsed
    /\ (((url.Scheme parsed = "http" \/ url.Scheme parsed = "https")
         /\ resolved = parsed)
        \/ (url.Scheme parsed = ""
            /\ url_ParseRequestURI
                 (FileServerURL (config backend) +:+ "/v1/static/" +:+ value)
               = Ok resolved)).
Proof.
  unfold compilerDownloadURL. intros Hurl.
  destruct (Lifecycles (config backend) !! "docker") as [value|];
    [|discriminate]. simpl in Hurl.
  destruct (String.eqb_spec value ""); [discriminate|].
  destruct (url_Parse value) as [parsed|] eqn:Hparse; [|discriminate].
  exists value, parsed. do 3 (split; [first [reflexivity | assumption]|]).
  destruct (String.eqb_spec (url.Scheme parsed) "http") as [Hhttp|_].
  { injection Hurl as <-. left. auto. }
  destruct (String.eqb_spec (url.Scheme parsed) "https") as [Hhttps|_].
  { injection Hurl as <-. left. auto. }
  simpl in Hurl.
  destruct (String.eqb_spec (url.Scheme parsed) "") as [Hnone|_];
    [|discriminate].
  right. split; [exact Hnone|].
  change (urljoiner_Join (FileServerURL (config backend))
            ["/v1/static/"; value])
    with (FileServerURL (config backend) +:+ "/v1/static/" +:+ value) in Hurl.
  destruct (url_ParseRequestURI _); [congruence | discriminate].
Qed.

Lemma compilerDownloadURL_resolved_from_witness :
  exists value parsed,
    Lifecycles (config (Suite.docker false)) !! "docker" = Some value
    /\ value <> ""
    /\ Reference.Parse value = Ok parsed
    /\ (((url.Scheme parsed = "http" \/ url.Scheme parsed = "https")
         /\ Suite.staticURL = parsed)
        \/ (url.Scheme parsed = ""
            /\ Reference.ParseRequestURI
                 ("http://file-server.com" +:+ "/v1/static/" +:+ value)
               = Ok Suite.staticURL)).
Proof.
  apply (compilerDownloadURL_resolved_from (lib := Reference.externals)
           (Suite.docker false) Suite.staticURL).
  vm_compute; reflexivity.
Defined.

(** X21: the NoCompilerDefined error is the answer exactly when the
    lifecycles have no "docker" entry or an empty one. *)
Theorem compilerDownloadURL_undefined_iff {lib : Externals}
    (backend : dockerBackend) :
  compilerDownloadURL backend = Err ErrNoCompilerDefined
  <-> Lifecycles (config backend) !! "docker" = None
      \/ Lifecycles (config backend) !! "docker" = Some "".
Proof.
  unfold compilerDownloadURL.
  destruct (Lifecycles (config backend) !! "docker") as [value|]; simpl.
  - destruct (String.eqb_spec value "") as [->|Hvalue].
    + split; auto.
    + split.
      * intros Herr. exfalso.
        destruct (url_Parse value) as [parsed|]; [|discriminate].
        destruct (String.eqb (url.Scheme parsed) "http"
                  || String.eqb (url.Scheme parsed) "https"); [discriminate|].
        destruct (String.eqb (url.Scheme parsed) ""); [|discriminate].
        simpl in Herr. destruct (url_ParseRequestURI _); discriminate.
      * intros [Hnone | [= Hempty]]; [discriminate | contradiction].
  - split; auto.
Qed.

(** X22: the resolution never hands on an error of the URL library as it
    is: besides NoCompilerDefined it fails with one of three messages of
    its own, for an entry that does not parse, for a scheme other than
    http and https, and for a joined URL that does not parse. *)
Theorem compilerDownloadURL_errors {lib : Externals} (backend : dockerBackend)
    (err : error) :
  compilerDownloadURL backend = Err err ->
  err = ErrNoCompilerDefined
  \/ err = ErrorString "couldn't parse compiler URL"
  \/ (exists scheme,
         scheme <> "http" /\ scheme <> "https" /\ scheme <> ""
         /\ err = ErrorString ("unknown scheme: '" +:+ scheme +:+ "'"))
  \/ (exists cause,
         err = ErrorString ("failed to parse compiler download URL: "
                            +:+ error_text cause)).
Proof.
  unfold compilerDownloadURL. intros Herr.
  destruct (String.eqb _ ""); [injection Herr as <-; auto|].
  destruct (url_Parse _) as [parsed|]; [|injection Herr as <-; auto].
  destruct (String.eqb_spec (url.Scheme parsed) "http"); [discriminate|].
  destruct (String.eqb_spec (url.Scheme parsed) "https"); [discriminate|].
  simpl in Herr.
  destruct (String.eqb_spec (url.Scheme parsed) "").
  - simpl in Herr. destruct (url_ParseRequestURI _) as [|cause]; [discriminate|].
    injection Herr as <-. right. right. right. eexists. reflexivity.
  - injection Herr as <-. right. right. left.
    exists (url.Scheme parsed). auto.
Qed.

Lemma compilerDownloadURL_errors_witness :
  ErrorString "unknown scheme: 'ftp'" = ErrNoCompilerDefined
  \/ ErrorString "unknown scheme: 'ftp'"
     = ErrorString "couldn't parse compiler URL"
  \/ (exists scheme,
         scheme <> "http" /\ scheme <> "https" /\ scheme <> ""
         /\ ErrorString "unknown scheme: 'ftp'"
            = ErrorString ("unknown scheme: '" +:+ scheme +:+ "'"))
  \/ (exists cause,
         ErrorString "unknown scheme: 'ftp'"
         = ErrorString ("failed to parse compiler download URL: "
                        +:+ error_text cause)).
Proof.
  apply (compilerDownloadURL_errors (lib := Reference.externals)
           (Suite.configured {[ "docker" := "ftp://the-bad-compiler-url" ]})).
  vm_compute; reflexivity.
Defined.

(** ** More on the time limit and the sizes *)

(** X23: for every timeout up to 9223372036 seconds, zero and negative
    ones included, the time limit is positive and at most that many
    seconds or 15 minutes. *)
Theorem dockerTimeout_positive (request : cc_messages.StagingRequestFromCC) :
  cc_messages.Timeout request <= 9223372036 ->
  0 < dockerTimeout request <= Z.max (9223372036 * Second) (15 * Minute).
Proof.
  intros Hrange. unfold dockerTimeout, DefaultStagingTimeout.
  destruct (Z.ltb_spec 0 (cc_messages.Timeout request)).
  - rewrite duration_mul_seconds by lia. unfold Minute, Second. lia.
  - unfold Minute, Second. lia.
Qed.

Lemma dockerTimeout_positive_witness :
  0 < dockerTimeout (Suite.stagingRequest "bunny" Suite.busybox (-3) [] [])
    <= Z.max (9223372036 * Second) (15 * Minute).
Proof.
  apply dockerTimeout_positive. simpl. lia.
Defined.

(** X24: a timeout from 9223372037 to 18446744073 seconds overflows the
    count of nanoseconds, and the time limit comes out negative. *)
Theorem dockerTimeout_overflow (request : cc_messages.StagingRequestFromCC) :
  9223372037 <= cc_messages.Timeout request <= 18446744073 ->
  dockerTimeout request = cc_messages.Timeout request * Second - 2 ^ 64
  /\ dockerTimeout request < 0.
Proof.
  intros Hrange. unfold dockerTimeout.
  destruct (Z.ltb_spec 0 (cc_messages.Timeout request)); [|lia].
  unfold duration_mul, Second.
  assert (H63 : 2 ^ 63 = 9223372036854775808) by reflexivity.
  assert (H64 : 2 ^ 64 = 18446744073709551616) by reflexivity.
  rewrite (int64_small (cc_messages.Timeout request)) by lia.
  assert (Hwrap :
    int64 (cc_messages.Timeout request * 1000000000)
    = cc_messages.Timeout request * 1000000000 - 2 ^ 64).
  { unfold int64. rewrite H63, H64.
    rewrite <- (Z.mod_unique
                  (cc_messages.Timeout request * 1000000000
                   + 9223372036854775808)
                  18446744073709551616 1
                  (cc_messages.Timeout request * 1000000000
                   - 9223372036854775808)); lia. }
  rewrite Hwrap. split; [reflexivity | lia].
Qed.

Lemma dockerTimeout_overflow_witness :
  dockerTimeout (Suite.stagingRequest "bunny" Suite.busybox 9223372037 [] [])
  = 9223372037 * Second - 2 ^ 64
  /\ dockerTimeout (Suite.stagingRequest "bunny" Suite.busybox 9223372037 [] [])
     < 0.
Proof.
  apply (dockerTimeout_overflow
           (Suite.stagingRequest "bunny" Suite.busybox 9223372037 [] [])).
  simpl. lia.
Defined.

(** X25: a memory size from 2147483648 to 4294967295 MB does not fit the
    int32 of the recipe: an accepted request of that size gets a recipe
    whose memory is the size less 4294967296, a negative number. *)
Theorem BuildRecipe_memory_wraps {lib : Externals} (backend : dockerBackend)
    (stagingGuid : string) (request : cc_messages.StagingRequestFromCC)
    (w w' : World) (td : models.TaskDefinition) (guid domain : string) :
  BuildRecipe backend stagingGuid request w
  = (Returned (td, guid, domain, None), w') ->
  2147483648 <= cc_messages.MemoryMB request < 4294967296 ->
  models.MemoryMb td = cc_messages.MemoryMB request - 4294967296
  /\ models.MemoryMb td < 0.
Proof.
  intros Hbuild Hrange.
  assert (Hmemory : models.MemoryMb td = int32 (cc_messages.MemoryMB request)).
  { destruct (BuildRecipe_accepted _ _ _ _ _ _ _ _ Hbuild)
      as (raw & data & compilerURL & cache & _ & _ & _ & _ & _ & _ & _ & Hcase).
    destruct cache.
    - destruct Hcase as (host & port & services & _ & _ & ->). reflexivity.
    - destruct Hcase as (_ & ->). reflexivity. }
  rewrite Hmemory. unfold int32.
  change (2 ^ 31) with 2147483648. change (2 ^ 32) with 4294967296.
  rewrite <- (Z.mod_unique (cc_messages.MemoryMB request + 2147483648)
                4294967296 1 (cc_messages.MemoryMB request - 2147483648));
    lia.
Qed.

Lemma BuildRecipe_memory_wraps_witness :
  let request :=
    {| cc_messages.AppId := "bunny"; cc_messages.LogGuid := "";
       cc_messages.FileDescriptors := 512; cc_messages.MemoryMB := 2147483648;
       cc_messages.DiskMB := 512; cc_messages.Environment := [];
       cc_messages.EgressRules := []; cc_messages.Timeout := 512;
       cc_messages.Lifecycle := "docker";
       cc_messages.LifecycleData := Some Suite.busybox |} in
  let built :=
    BuildRecipe (lib := Reference.externals) (Suite.docker false)
      Suite.stagingGuid request Suite.registry in
  built = (Returned (Suite.taskOf built, Suite.stagingGuid, "", None),
           Suite.registry)
  /\ models.MemoryMb (Suite.taskOf built) = 2147483648 - 4294967296
  /\ models.MemoryMb (Suite.taskOf built) < 0.
Proof.
  intros request built.
  assert (Hbuild :
    built = (Returned (Suite.taskOf built, Suite.stagingGuid, "", None),
             Suite.registry))
    by (vm_compute; reflexivity).
  split; [exact Hbuild|].
  apply (BuildRecipe_memory_wraps _ _ _ _ _ _ _ _ Hbuild). simpl. lia.
Defined.

(** ** The response builder *)

(** X26: the response builder only checks that the annotation decodes and
    does not read what it says: two callbacks that differ in their
    annotations only, both decodable, get the same answer. *)
Theorem BuildStagingResponse_any_annotation {lib : Externals}
    (backend : dockerBackend) (annotation annotation' : string)
    (decoded decoded' : cc_messages.StagingTaskAnnotation)
    (taskGuid failureReason result : string) (failed : bool) :
  cc_messages.Unmarshal annotation = Ok decoded ->
  cc_messages.Unmarshal annotation' = Ok decoded' ->
  BuildStagingResponse backend
    {| models.TaskGuid := taskGuid;
       models.CallbackAnnotation := annotation;
       models.Failed := failed;
       models.FailureReason := failureReason;
       models.Result := result |}
  = BuildStagingResponse backend
      {| models.TaskGuid := taskGuid;
         models.CallbackAnnotation := annotation';
         models.Failed := failed;
         models.FailureReason := failureReason;
         models.Result := result |}.
Proof.
  intros Hdecoded Hdecoded'. unfold BuildStagingResponse.
  cbn [models.CallbackAnnotation]. rewrite Hdecoded, Hdecoded'. reflexivity.
Qed.

Lemma BuildStagingResponse_any_annotation_witness :
  BuildStagingResponse (lib := Reference.externals) (Suite.docker false)
    {| models.TaskGuid := Suite.stagingGuid;
       models.CallbackAnnotation := JSON.object [("lifecycle", "docker")];
       models.Failed := true;
       models.FailureReason := "some-failure-reason";
       models.Result := "" |}
  = BuildStagingResponse (lib := Reference.externals) (Suite.docker false)
      {| models.TaskGuid := Suite.stagingGuid;
         models.CallbackAnnotation := JSON.object [("lifecycle", "buildpack")];
         models.Failed := true;
         models.FailureReason := "some-failure-reason";
         models.Result := "" |}.
Proof.
  apply (BuildStagingResponse_any_annotation (lib := Reference.externals)
           (Suite.docker false) _ _
           {| cc_messages.AnnotationLifecycle := "docker" |}
           {| cc_messages.AnnotationLifecycle := "buildpack" |}).
  - vm_compute; reflexivity.
  - vm_compute; reflexivity.
Defined.

(** X27: for a failed task whose annotation decodes the builder always
    answers, with the sanitized failure reason as the error and nothing
    else; the result of the task is not read. *)
Theorem BuildStagingResponse_failed_task {lib : Externals}
    (backend : dockerBackend) (taskResponse : models.TaskCallbackResponse)
    (decoded : cc_messages.StagingTaskAnnotation) :
  cc_messages.Unmarshal (models.CallbackAnnotation taskResponse) = Ok decoded ->
  models.Failed taskResponse = true ->
  BuildStagingResponse backend taskResponse
  = Ok {| cc_messages.Error :=
            Some (Sanitizer (config backend) (models.FailureReason taskResponse));
          cc_messages.ExecutionMetadata := "";
          cc_messages.DetectedStartCommand := ∅;
          cc_messages.ResponseLifecycleData := None |}.
Proof.
  intros Hdecoded Hfailed. unfold BuildStagingResponse, buildResponse.
  now rewrite Hdecoded, Hfailed.
Qed.

Lemma BuildStagingResponse_failed_task_witness :
  BuildStagingResponse (lib := Reference.externals) (Suite.docker false)
    {| models.TaskGuid := Suite.stagingGuid;
       models.CallbackAnnotation := JSON.object [("lifecycle", "docker")];
       models.Failed := true;
       models.FailureReason := "some-failure-reason";
       models.Result := "invalid-json" |}
  = Ok {| cc_messages.Error :=
            Some {| cc_messages.Id := "";
                    cc_messages.Message :=
                      "some-failure-reason was totally sanitized" |};
          cc_messages.ExecutionMetadata := "";
          cc_messages.DetectedStartCommand := ∅;
          cc_messages.ResponseLifecycleData := None |}.
Proof.
  assert (Hdecoded :
    cc_messages.Unmarshal (JSON.object [("lifecycle", "docker")])
    = Ok {| cc_messages.AnnotationLifecycle := "docker" |})
    by (vm_compute; reflexivity).
  exact (BuildStagingResponse_failed_task (lib := Reference.externals)
           (Suite.docker false)
           {| models.TaskGuid := Suite.stagingGuid;
              models.CallbackAnnotation := JSON.object [("lifecycle", "docker")];
              models.Failed := true;
              models.FailureReason := "some-failure-reason";
              models.Result := "invalid-json" |}
           {| cc_messages.AnnotationLifecycle := "docker" |}
           Hdecoded eq_refl).
Defined.

(** X28: a response that the builder returns carries an error exactly when
    the task failed.  For a failed task it is the sanitized failure reason
    and there is no lifecycle data; for a task that did not fail the
    execution metadata and the start commands are those of the task's
    result and the lifecycle data is built from its docker image. *)
Theorem BuildStagingResponse_response {lib : Externals}
    (backend : dockerBackend) (taskResponse : models.TaskCallbackResponse)
    (response : cc_messages.StagingResponseForCC) :
  BuildStagingResponse backend taskResponse = Ok response ->
  if models.Failed taskResponse then
    cc_messages.Error response
    = Some (Sanitizer (config backend) (models.FailureReason taskResponse))
    /\ cc_messages.ResponseLifecycleData response = None
  else
    cc_messages.Error response = None
    /\ exists result,
         Unmarshal_StagingDockerResult (models.Result taskResponse) = Ok result
         /\ BuildDockerStagingData (docker_app_lifecycle.DockerImage result)
            = Ok (cc_messages.ResponseLifecycleData response)
         /\ cc_messages.ExecutionMetadata response
            = docker_app_lifecycle.ExecutionMetadata result
         /\ cc_messages.DetectedStartCommand response
            = docker_app_lifecycle.DetectedStartCommand result.
Proof.
  unfold BuildStagingResponse, buildResponse. intros Hresponse.
  destruct (cc_messages.Unmarshal _); [|discriminate].
  destruct (models.Failed taskResponse).
  - injection Hresponse as <-. split; reflexivity.
  - destruct (Unmarshal_StagingDockerResult _) as [result|] eqn:Hresult;
      [|discriminate].
    destruct (BuildDockerStagingData _) as [data|] eqn:Hdata; [|discriminate].
    injection Hresponse as <-. split; [reflexivity|].
    exists result. auto.
Qed.

Lemma BuildStagingResponse_response_witness :
  exists response,
    BuildStagingResponse (lib := Reference.externals) (Suite.docker false)
      {| models.TaskGuid := Suite.stagingGuid;
         models.CallbackAnnotation := JSON.object [("lifecycle", "docker")];
         models.Failed := false;
         models.FailureReason := "";
         models.Result :=
           JSON.object [("execution_metadata", "metadata");
                        ("docker_image", "busybox")] |}
    = Ok response
    /\ cc_messages.Error response = None
    /\ cc_messages.ExecutionMetadata response = "metadata"
    /\ cc_messages.ResponseLifecycleData response = Some Suite.busybox.
Proof.
  eexists. split; [vm_compute; reflexivity|].
  match goal with
  | |- cc_messages.Error ?r = _ /\ _ =>
      pose proof (BuildStagingResponse_response (lib := Reference.externals)
                    (Suite.docker false)
                    {| models.TaskGuid := Suite.stagingGuid;
                       models.CallbackAnnotation :=
                         JSON.object [("lifecycle", "docker")];
                       models.Failed := false;
                       models.FailureReason := "";
                       models.Result :=
                         JSON.object [("execution_metadata", "metadata");
                                      ("docker_image", "busybox")] |}
                    r ltac:(vm_compute; reflexivity)) as Hresponse
  end.
  cbn [models.Failed] in Hresponse. destruct Hresponse as (Herror & _).
  split; [exact Herror|]. split; reflexivity.
Defined.

(** X29: a callback whose annotation is not JSON is turned down with the
    syntax error, failed task or not; the failure reason of a failed task
    is then not reported. *)
Theorem BuildStagingResponse_invalid_annotation {lib : Externals}
    (backend : dockerBackend) (taskResponse : models.TaskCallbackResponse) :
  JSON.parse (models.CallbackAnnotation taskResponse) = None ->
  BuildStagingResponse backend taskResponse = Err JSON.SyntaxError.
Proof.
  intros Hparse. unfold BuildStagingResponse, cc_messages.Unmarshal.
  now rewrite Hparse.
Qed.

Lemma BuildStagingResponse_invalid_annotation_witness :
  BuildStagingResponse (lib := Reference.externals) (Suite.docker false)
    {| models.TaskGuid := Suite.stagingGuid;
       models.CallbackAnnotation := "invalid-json";
       models.Failed := true;
       models.FailureReason := "some-failure-reason";
       models.Result := "" |}
  = Err JSON.SyntaxError.
Proof.
  apply (BuildStagingResponse_invalid_annotation (lib := Reference.externals)).
  vm_compute; reflexivity.
Defined.

(** ** The arguments of image caching *)

(** X30: the extension of the arguments never fails and never touches the
    arguments it is given: they stay in front, followed by the four fixed
    arguments and then by two more for an insecure registry, two for a
    login server and six for credentials, which it adds for a user name
    alone, whether or not password and email are there. *)
Theorem addDockerCachingArguments_extends (args : list string)
    (registryIPs : string) (insecureRegistry : bool) (host port : string)
    (stagingData : cc_messages.DockerStagingData) :
  exists more,
    addDockerCachingArguments args registryIPs insecureRegistry host port
      stagingData
    = Ok (args
          ++ ["-cacheDockerImage";
              "-dockerRegistryHost"; host;
              "-dockerRegistryPort"; port;
              "-dockerRegistryIPs"; registryIPs]
          ++ more)
    /\ length more
       = ((if insecureRegistry then 2 else 0)
          + (if nonEmpty (cc_messages.DockerLoginServer stagingData)
             then 2 else 0)
          + (if nonEmpty (cc_messages.DockerUser stagingData) then 6 else 0))%nat.
Proof.
  unfold addDockerCachingArguments. rewrite !len_pos.
  destruct insecureRegistry,
    (nonEmpty (cc_messages.DockerLoginServer stagingData)),
    (nonEmpty (cc_messages.DockerUser stagingData));
    eexists; (split; [rewrite <- ?app_assoc; simpl; reflexivity | reflexivity]).
Qed.
